(** * Lip-reading service: landmark-to-text pipeline

    A shallow embedding of [compvis/services/lipread/app.py] and
    [compvis/services/lipread/app_lightweight.py], and the properties of
    the pipeline that the specification states about them.

    Modelling conventions.
    - A Python [float] is an IEEE-754 binary64 value and a [torch.float32]
      / NumPy [float32] entry is a binary32 value; both are values of
      [spec_float], with the operations of [SpecFloat] taken at the
      precision of the array they belong to (see [dtype]).
    - An n-dimensional array is a nested list; only rectangular nested
      lists are arrays, and the constructors [np_array2], [np_array3] and
      [torch_tensor] raise on the others.
    - A NumPy sum is a left-to-right IEEE sum.  NumPy blocks long sums
      pairwise, which may change the last bits of a result; no statement
      below depends on how a finite sum is rounded.
    - A float32 NumPy scalar combined with a Python number is promoted to
      binary64 first (NumPy 1.x promotion; NumPy 2 narrows the Python
      number instead).  The statements below rest on NaN propagation, on
      the comparisons of the clamp and on the shapes of the arrays, not on
      the format in which such a product or comparison is carried out.
    - [list(set(...))] lists the elements of the set in the order in
      which CPython iterates over it; [valid_lip_indices] is written out in
      that order.
    - Python exceptions are values of [exception]; a function that can
      raise returns a [result].  The message of an exception raised by
      NumPy or pydantic is kept up to its first sentence.  Logging is not
      modelled, and neither are quantities that are only logged. *)

From Stdlib Require Import ZArith List String SpecFloat DecimalString Lia.
From stdpp Require Import base gmap list strings.

Open Scope string_scope.
Open Scope list_scope.
Open Scope nat_scope.

(** ** IEEE-754 values at the two precisions the service uses *)

Module Float.

Inductive dtype := float32 | float64.

Definition prec (dt : dtype) : Z :=
  match dt with float32 => 24%Z | float64 => 53%Z end.

Definition emax (dt : dtype) : Z :=
  match dt with float32 => 128%Z | float64 => 1024%Z end.

Definition float := spec_float.

Definition nan : float := S754_nan.
Definition zero : float := S754_zero false.

Definition add (dt : dtype) : float -> float -> float := SFadd (prec dt) (emax dt).
Definition sub (dt : dtype) : float -> float -> float := SFsub (prec dt) (emax dt).
Definition mul (dt : dtype) : float -> float -> float := SFmul (prec dt) (emax dt).
Definition div (dt : dtype) : float -> float -> float := SFdiv (prec dt) (emax dt).
Definition sqrt (dt : dtype) : float -> float := SFsqrt (prec dt) (emax dt).
Definition abs : float -> float := SFabs.
Definition neg : float -> float := SFopp.

(** [x.astype(dt)]: rounding to nearest even into the target format;
    exact when the value already fits (binary32 into binary64). *)
Definition astype (dt : dtype) (x : float) : float :=
  match x with
  | S754_finite s m e => binary_round (prec dt) (emax dt) s m e
  | _ => x
  end.

Definition of_Z (dt : dtype) (z : Z) : float :=
  binary_normalize (prec dt) (emax dt) z 0 false.

Definition of_nat (dt : dtype) (n : nat) : float := of_Z dt (Z.of_nat n).

(** Python comparison operators on two values of one format; every
    comparison with NaN is [False]. *)
Definition lt (x y : float) : bool := SFltb x y.
Definition le (x y : float) : bool := SFleb x y.
Definition gt (x y : float) : bool := SFltb y x.

Definition is_nan (x : float) : bool :=
  match x with S754_nan => true | _ => false end.

(** A Python decimal literal [n/d] with [n] and [d] exactly representable
    is the binary64 value nearest to the quotient. *)
Definition literal (n d : Z) : float := div float64 (of_Z float64 n) (of_Z float64 d).

(** The builtins [max(a, b)] and [min(a, b)]: the first argument is kept
    unless the second compares strictly greater (smaller). *)
Definition py_max (a b : float) : float := if gt b a then b else a.
Definition py_min (a b : float) : float := if lt b a then b else a.

End Float.

Import Float.

(** ** Exceptions and fallible computations *)

Inductive exception :=
  | ValueError (msg : string)
  | IndexError (msg : string)
  | ValidationError (msg : string).

(** [str(e)] *)
Definition str (e : exception) : string :=
  match e with
  | ValueError msg | IndexError msg | ValidationError msg => msg
  end.

Inductive result (A : Type) :=
  | Ok (a : A)
  | Raise (e : exception).

Arguments Ok {A} a.
Arguments Raise {A} e.

Definition bind {A B} (r : result A) (k : A -> result B) : result B :=
  match r with
  | Ok a => k a
  | Raise e => Raise e
  end.

Notation "'let*' x ':=' r 'in' k" := (bind r (fun x => k))
  (at level 10, x name, r at level 100, k at level 200).

(** [try: body  except Exception: handler] *)
Definition try_except {A} (body : result A) (handler : exception -> A) : A :=
  match body with
  | Ok a => a
  | Raise e => handler e
  end.

(** [for x in xs: state = body(state, x)], stopping at the first raise. *)
Fixpoint for_each {S A} (body : S -> A -> result S) (s : S) (xs : list A) : result S :=
  match xs with
  | [] => Ok s
  | x :: xs' => let* s' := body s x in for_each body s' xs'
  end.

Definition repr_nat (n : nat) : string := NilEmpty.string_of_uint (Nat.to_uint n).

(** ** The NumPy and PyTorch operations the service calls *)

Module Numpy.

Definition array1 := list float.
Definition array2 := list (list float).
Definition array3 := list (list (list float)).

(** Columns of a rectangular list of rows. *)
Fixpoint transpose {A} (rows : list (list A)) : list (list A) :=
  match rows with
  | [] => []
  | r :: rs =>
      match rs with
      | [] => map (fun x => [x]) r
      | _ :: _ => zip_with cons r (transpose rs)
      end
  end.

(** [a.shape[1]] and [a.shape[2]] of a three-dimensional array with
    non-empty leading dimensions. *)
Definition shape1 (a : array3) : nat := length (hd [] a).
Definition shape2 (a : array3) : nat := length (hd [] (hd [] a)).

Definition inhomogeneous : exception :=
  ValueError "setting an array element with a sequence. The requested array has an inhomogeneous shape".

Definition rectangular {A} (n : nat) (rows : list (list A)) : bool :=
  forallb (fun r => length r =? n) rows.

(** [np.array(rows)] on a list of lists of floats.  Rows of unequal length
    do not form an array: NumPy raises [ValueError] (older releases build
    an array of objects, on which the arithmetic that follows raises). *)
Definition np_array2 (rows : list (list float)) : result array2 :=
  if rectangular (length (hd [] rows)) rows then Ok rows else Raise inhomogeneous.

(** [np.array(frames)] on a list of frames of points. *)
Definition np_array3 (frames : list (list (list float))) : result array3 :=
  if rectangular (length (hd [] frames)) frames
     && forallb (rectangular (length (hd [] (hd [] frames)))) frames
  then Ok frames else Raise inhomogeneous.

Definition broadcast_error (n m : nat) : exception :=
  ValueError ("operands could not be broadcast together with shapes ("
              ++ repr_nat n ++ ",) (" ++ repr_nat m ++ ",) ")%string.

(** [a[:, :, k]] *)
Definition index_axis2 (a : array3) (k : nat) : result array2 :=
  if k <? shape2 a
  then Ok (map (map (fun v : array1 => default nan (v !! k))) a)
  else Raise (IndexError ("index " ++ repr_nat k ++ " is out of bounds for axis 2 with size "
                          ++ repr_nat (shape2 a))%string).

Section Dtype.

Variable dt : dtype.

(** [a - b] on one-dimensional arrays, with NumPy broadcasting. *)
Definition np_subtract (a b : array1) : result array1 :=
  if length a =? length b then Ok (zip_with (sub dt) a b)
  else match a, b with
       | [x], _ => Ok (map (fun y => sub dt x y) b)
       | _, [y] => Ok (map (fun x => sub dt x y) a)
       | _, _ => Raise (broadcast_error (length a) (length b))
       end.

Definition np_sum (a : array1) : float :=
  match a with
  | [] => zero
  | x :: r => foldl (add dt) x r
  end.

(** [np.mean]: the mean of no values is 0/0. *)
Definition np_mean (a : array1) : float :=
  div dt (np_sum a) (of_nat dt (length a)).

Definition np_var (a : array1) : float :=
  let arrmean := np_mean a in
  np_mean (map (fun x => let d := sub dt x arrmean in mul dt d d) a).

Definition np_std (a : array1) : float := sqrt dt (np_var a).

Definition maximum (x y : float) : float :=
  if is_nan x then x else if is_nan y then y else if lt x y then y else x.

Definition minimum (x y : float) : float :=
  if is_nan x then x else if is_nan y then y else if lt y x then y else x.

Definition zero_size (name : string) : exception :=
  ValueError ("zero-size array to reduction operation " ++ name
              ++ " which has no identity")%string.

Definition np_max (a : array1) : result float :=
  match a with
  | [] => Raise (zero_size "maximum")
  | x :: r => Ok (foldl maximum x r)
  end.

Definition np_min (a : array1) : result float :=
  match a with
  | [] => Raise (zero_size "minimum")
  | x :: r => Ok (foldl minimum x r)
  end.

(** [np.diff(a)] on the last axis: [a[1:] - a[:-1]]. *)
Definition np_diff (a : array1) : array1 := zip_with (sub dt) (tail a) a.

(** Reductions and differences along one axis. *)
Definition np_mean_axis0 (a : array2) : array1 := map np_mean (transpose a).

Definition np_var_axis1 (a : array3) : array2 :=
  map (fun block => map np_var (transpose block)) a.

Definition np_mean_axis1 (a : array3) : array2 :=
  map (fun block => map np_mean (transpose block)) a.

Definition np_diff_axis0_2 (a : array2) : array2 :=
  zip_with (zip_with (sub dt)) (tail a) a.

Definition np_diff_axis0 (a : array3) : array3 :=
  zip_with (zip_with (zip_with (sub dt))) (tail a) a.

(** [np.linalg.norm(a, axis=2)] *)
Definition norm_axis2 (a : array3) : array2 :=
  map (map (fun v => sqrt dt (np_sum (map (fun x => mul dt x x) v)))) a.

End Dtype.

(** [np.zeros_like(a)] *)
Definition np_zeros_like (a : array1) : array1 := replicate (length a) zero.

(** [torch.tensor(rows, dtype=torch.float32)] on a list of
    one-dimensional arrays. *)
Definition torch_tensor (rows : list array1) : result array2 :=
  match list_find (fun r => length r <> length (hd [] rows)) rows with
  | Some (_, r) =>
      Raise (ValueError ("expected sequence of length " ++ repr_nat (length (hd [] rows))
                         ++ " at dim 1 (got " ++ repr_nat (length r) ++ ")")%string)
  | None => Ok (map (map (astype float32)) rows)
  end.

End Numpy.

Import Numpy.

(** ** app.py *)

Module App.

(** Essential lip landmarks of the MediaPipe face mesh: outer contour,
    inner contour, corners and key mouth points. *)
Definition lip_indices : list nat :=
  [61; 84; 17; 314; 405; 320; 307; 375; 321; 308; 324; 318;
   78; 95; 88; 178; 87; 14; 317; 402; 318; 324; 308;
   13; 82; 81; 80; 310; 311; 312].

(** [list(set([i for i in lip_indices if i < 468]))]: the 27 distinct
    indices, in the order in which CPython iterates over the set. *)
Definition valid_lip_indices : list nat :=
  [13; 14; 17; 402; 405; 178; 307; 308; 310; 311; 312; 314; 317; 61;
   318; 320; 321; 324; 78; 80; 81; 82; 84; 87; 88; 95; 375].

Definition max_frames : nat := 50.

(** [[frame_landmarks[i] for i in valid_lip_indices if i < len(frame_landmarks)]] *)
Definition lip_landmarks_of (frame_landmarks : list (list float)) : list (list float) :=
  omap (fun i => frame_landmarks !! i)
       (filter (fun i => i < length frame_landmarks) valid_lip_indices).

(** Normalization of one frame's lip array: centre it on the mouth
    centre, scale it by its standard deviation when that is positive,
    and flatten it. *)
Definition normalize (lip_array : array2) : array1 :=
  let mouth_center := np_mean_axis0 float64 lip_array in
  let lip_array := map (fun row => zip_with (sub float64) row mouth_center) lip_array in
  let lip_scale := np_std float64 (concat lip_array) in
  let lip_array :=
    if gt lip_scale zero
    then map (map (fun x => div float64 x lip_scale)) lip_array
    else lip_array in
  concat lip_array.

(** Temporal features: from the second processed frame on, the movement
    from the previous feature vector is appended to the coordinates. *)
Definition enhance (processed_frames : list array1) (flat : array1) : result array1 :=
  match last processed_frames with
  | Some prev_frame =>
      let* movement := np_subtract float64 flat prev_frame in
      Ok (flat ++ movement)
  | None => Ok flat
  end.

(** One iteration of the frame loop of [preprocess_landmarks]:
    [processed_frames] is the state, [frame_landmarks] the loop
    variable. *)
Definition process_frame (processed_frames : list array1)
    (frame_landmarks : list (list float)) : result (list array1) :=
  if 468 <=? length frame_landmarks then
    let lip_landmarks := lip_landmarks_of frame_landmarks in
    if 0 <? length lip_landmarks then
      let* lip_array := np_array2 lip_landmarks in
      let* enhanced_frame := enhance processed_frames (normalize lip_array) in
      Ok (processed_frames ++ [enhanced_frame])
    else Ok processed_frames
  else Ok processed_frames.

(** [while len(processed_frames) < max_frames:
       processed_frames.append(np.zeros_like(processed_frames[0]))];
    the loop body runs at most [max_frames] times. *)
Fixpoint pad_while (fuel : nat) (processed_frames : list array1) : list array1 :=
  match fuel with
  | 0 => processed_frames
  | S fuel' =>
      if length processed_frames <? max_frames
      then pad_while fuel' (processed_frames ++ [np_zeros_like (hd [] processed_frames)])
      else processed_frames
  end.

(** Pad or truncate to the fixed sequence length. *)
Definition pad_or_truncate (processed_frames : list array1) : list array1 :=
  if max_frames <? length processed_frames
  then take max_frames processed_frames
  else pad_while max_frames processed_frames.

(** The [except] clause of [preprocess_landmarks] logs and re-raises, so
    the function raises exactly what its body raises.  The result is the
    tensor with its batch dimension, shape (1, 50, W). *)
Definition preprocess_landmarks (landmarks_data : list (list (list float))) : result array3 :=
  let* processed_frames := for_each process_frame [] landmarks_data in
  match processed_frames with
  | [] => Raise (ValueError "No valid lip landmarks found")
  | _ :: _ =>
      let* tensor_data := torch_tensor (pad_or_truncate processed_frames) in
      Ok [tensor_data]
  end.

(** A float32 NumPy scalar meeting a Python number in a comparison or
    a product. *)
Definition promote (x : float) : float := astype float64 x.

(** [movement_intensity = np.mean(np.linalg.norm(np.diff(landmarks_np, axis=0), axis=2))],
    as both [analyze_lip_patterns] and [calculate_confidence] compute it. *)
Definition movement_intensity (landmarks_np : array3) : float :=
  let frame_diffs := np_diff_axis0 float32 landmarks_np in
  np_mean float32 (concat (norm_axis2 float32 frame_diffs)).

(** [total_variance = np.mean(np.var(landmarks_np, axis=1))] *)
Definition total_variance (landmarks_np : array3) : float :=
  let frame_variance := np_var_axis1 float32 landmarks_np in
  np_mean float32 (concat frame_variance).

(** *** The heuristic classifier *)

(** The locals of [detect_phonemes] on which its rules branch. *)
Record ranges := {
  lip_opening_range : float;
  lip_width_range : float;
  movement_patterns : array2
}.

Definition measure_ranges (landmarks_np : array3) (x_coords y_coords : array2)
    : result ranges :=
  let* y_max := np_max (concat y_coords) in
  let* y_min := np_min (concat y_coords) in
  let* x_max := np_max (concat x_coords) in
  let* x_min := np_min (concat x_coords) in
  let frame_diffs := np_diff_axis0 float32 landmarks_np in
  Ok {| lip_opening_range := sub float32 y_max y_min;
        lip_width_range := sub float32 x_max x_min;
        movement_patterns := np_mean_axis1 float32 (map (map (map abs)) frame_diffs) |}.

(** [np.sum(a < threshold)] and [np.sum(a > threshold)] for a float32
    array and a scalar. *)
Definition count_below (a : array1) (threshold : float) : nat :=
  length (filter (fun v => lt v (astype float32 threshold) = true) a).
Definition count_above (a : array1) (threshold : float) : nat :=
  length (filter (fun v => gt v (astype float32 threshold) = true) a).

(** The threshold rules, in source order; each appends to [phonemes]. *)
Definition vowel_rule (r : ranges) : list string :=
  if gt (promote (lip_opening_range r)) (literal 1 100) then
    if gt (promote (lip_width_range r)) (literal 8 1000) then ["A"] else ["O"]
  else if gt (promote (lip_opening_range r)) (literal 8 1000) then
    if gt (promote (lip_width_range r)) (literal 5 1000) then ["E"] else ["I"]
  else if gt (promote (lip_opening_range r)) (literal 5 1000) then ["U"]
  else [].

Definition labial_rule (r : ranges) : list string :=
  if gt (promote (lip_width_range r)) (literal 1 100) then ["M"; "B"; "P"] else [].

Definition fricative_rule (r : ranges) : list string :=
  let mp := movement_patterns r in
  let rapid_movements :=
    count_above (concat mp) (mul float64 (promote (np_mean float32 (concat mp))) (literal 12 10)) in
  if gt (of_nat float64 rapid_movements) (mul float64 (of_nat float64 (length mp)) (literal 2 10))
  then ["F"; "V"] else [].

Definition stop_rule (r : ranges) : list string :=
  let mp := movement_patterns r in
  let movement_stops :=
    count_below (concat (map (np_diff float32) mp))
                (mul float64 (promote (neg (np_std float32 (concat mp)))) (literal 5 10)) in
  if 0 <? movement_stops then ["T"; "D"] else [].

Definition movement_rule (r : ranges) : list string :=
  let avg_movement := np_mean float32 (concat (movement_patterns r)) in
  if gt (promote avg_movement) (literal 1 100) then
    (if gt (promote (lip_opening_range r)) (literal 1 100) then ["H"] else [])
    ++ (if gt (promote (lip_width_range r)) (literal 1 100) then ["L"] else [])
  else [].

Definition threshold_rules (r : ranges) : list string :=
  vowel_rule r ++ labial_rule r ++ fricative_rule r ++ stop_rule r ++ movement_rule r.

(** [if not phonemes: ...] *)
Definition infer_default (r : ranges) (phonemes : list string) : list string :=
  match phonemes with
  | [] =>
      if gt (promote (lip_opening_range r)) (literal 1 1000) then ["H"]
      else if gt (promote (lip_width_range r)) (literal 1 1000) then ["M"]
      else ["A"]
  | _ :: _ => phonemes
  end.

Definition detect_phonemes (landmarks_np : array3) (x_coords y_coords : array2)
    : list string :=
  try_except
    (let* r := measure_ranges landmarks_np x_coords y_coords in
     Ok (infer_default r (threshold_rules r)))
    (fun _ => ["H"; "E"; "L"; "L"; "O"]).

(** *** Text synthesis *)

(** ["X" in phonemes] *)
Definition has (p : string) (phonemes : list string) : bool :=
  bool_decide (p ∈ phonemes).

(** [p in "AEIOU"], a substring test. *)
Definition in_vowels (p : string) : bool :=
  match String.index 0 p "AEIOU" with Some _ => true | None => false end.

(** The value [phonemes_to_text] returns; [None] is Python's [None],
    returned when control leaves the function without a [return].  No
    operation of the body raises, so its [except] clause never runs. *)
Definition phonemes_to_text (phonemes : list string)
    (movement_intensity lip_opening_variance : float) : option string :=
  let mi := promote movement_intensity in
  match phonemes with [] => Some "No speech detected" | _ :: _ =>
  if has "H" phonemes && has "E" phonemes && has "L" phonemes then
    if gt mi (literal 15 1000) then Some "Hello world" else Some "Hello"
  else if has "H" phonemes && has "I" phonemes then Some "Hi"
  else if has "G" phonemes && has "O" phonemes && has "D" phonemes then Some "Good"
  else if has "T" phonemes && has "H" phonemes && has "A" phonemes && has "N" phonemes
    then Some "Thank you"
  else if has "Y" phonemes && has "E" phonemes && has "S" phonemes then Some "Yes"
  else if has "N" phonemes && has "O" phonemes then Some "No"
  else if has "B" phonemes && has "Y" phonemes then Some "Bye"
  else if has "P" phonemes && has "L" phonemes && has "E" phonemes then Some "Please"
  else if has "S" phonemes && has "O" phonemes && has "R" phonemes then Some "Sorry"
  else if length phonemes =? 1 then
    if has "A" phonemes then Some "Ah"
    else if has "E" phonemes then Some "Eh"
    else if has "I" phonemes then Some "Ee"
    else if has "O" phonemes then Some "Oh"
    else if has "U" phonemes then Some "Oo"
    else None
  else if 2 <=? length (filter (fun p => in_vowels p = true) phonemes) then
    if gt mi (literal 2 100) then Some "Hello world"
    else if gt mi (literal 15 1000) then Some "Hello"
    else Some "Hi"
  else if 2 <=? length (filter (fun p => in_vowels p = false) phonemes) then
    if has "M" phonemes || has "B" phonemes || has "P" phonemes then Some "Good"
    else if has "T" phonemes || has "D" phonemes then Some "Thank you"
    else Some "Yes"
  else if gt mi (literal 2 100) && (3 <? length phonemes) then Some "Hello world"
  else if gt mi (literal 15 1000) && (2 <? length phonemes) then Some "Hello"
  else if gt mi (literal 1 100) then Some "Hi"
  else Some "Ah"
  end.

(** [analyze_lip_patterns].  Both branches of its test on [shape[2]] take
    the same slices for x and y.  The variances, shape changes and
    frequency power it computes besides are only logged, and computing
    them raises nothing once the slices exist. *)
Definition analyze_lip_patterns (landmarks_np : array3) : option string :=
  try_except
    (if 0 <? shape1 landmarks_np then
       let* x_coords := index_axis2 landmarks_np 0 in
       let* y_coords := index_axis2 landmarks_np 1 in
       let* z_coords :=
         if 3 <=? shape2 landmarks_np then index_axis2 landmarks_np 2 else Ok [] in
       let lip_opening_variance := np_var float32 (concat y_coords) in
       let detected_phonemes := detect_phonemes landmarks_np x_coords y_coords in
       Ok (phonemes_to_text detected_phonemes (movement_intensity landmarks_np)
                            lip_opening_variance)
     else Ok (Some "No speech detected"))
    (fun _ => Some "Error in analysis").

(** The global [model]: [load_model] assigns [None] to it on every path
    and nothing else assigns it, so no model value exists. *)
Inductive transformer_model : Set := .

Record globals := {
  model : option transformer_model;
  tokenizer_loaded : bool;
  cuda_available : bool
}.

Definition predict_text (g : globals) (landmarks_tensor : array3) : option string :=
  match model g with
  | None => analyze_lip_patterns landmarks_tensor
  | Some m => match m with end
  end.

(** *** Confidence *)

Definition calculate_confidence (landmarks_tensor : array3) : float :=
  try_except
    (let landmarks_np := landmarks_tensor in
     let* lip_opening_variance_200 :=
       if 2 <=? shape2 landmarks_np then
         let* y_coords := index_axis2 landmarks_np 1 in
         Ok (mul float64 (promote (np_var float32 (concat y_coords))) (of_Z float64 200))
       else Ok (of_Z float64 (0 * 200)) in
     Ok (py_min (of_Z float64 1)
           (py_max (literal 1 10)
              (add float64
                 (add float64
                    (mul float64 (promote (total_variance landmarks_np)) (of_Z float64 100))
                    (mul float64 (promote (movement_intensity landmarks_np)) (of_Z float64 50)))
                 lip_opening_variance_200))))
    (fun _ => literal 1 10).

(** *** The /predict endpoint *)

Record LipReadResponse := {
  text : string;
  confidence : float;
  processing_time : float
}.

(** Construction of the response model validates [text: str]. *)
Definition new_response (text : option string) (confidence processing_time : float)
    : result LipReadResponse :=
  match text with
  | Some s => Ok {| text := s; confidence := confidence; processing_time := processing_time |}
  | None => Raise (ValidationError "1 validation error for LipReadResponse")
  end.

(** The two readings of [time.time()] a request makes. *)
Record clock := { start_time : float; end_time : float }.

(** The [try] block of the /predict handler. *)
Definition predict_lip_reading_try (g : globals) (clk : clock)
    (landmarks : list (list (list float))) : result LipReadResponse :=
  let* landmarks_tensor := preprocess_landmarks landmarks in
  let predicted_text := predict_text g landmarks_tensor in
  let processing_time := sub float64 (end_time clk) (start_time clk) in
  let confidence := calculate_confidence landmarks_tensor in
  new_response predicted_text confidence processing_time.

(** The handler: any exception of the [try] block becomes the
    zero-confidence error response. *)
Definition predict_lip_reading (g : globals) (clk : clock)
    (landmarks : list (list (list float))) : LipReadResponse :=
  try_except
    (predict_lip_reading_try g clk landmarks)
    (fun e => {| text := "Error processing landmarks: " +:+ str e;
                 confidence := of_Z float64 0;
                 processing_time := sub float64 (end_time clk) (start_time clk) |}).

(** *** Sample requests *)

Definition still_point : list float := [zero; zero; zero].

(** A full face mesh at rest: 468 points at the origin. *)
Definition still_frame : list (list float) := replicate 468 still_point.

(** The tensor of the one-frame request [[still_frame]]: 27 lip points
    of three coordinates, then 49 padding rows. *)
Definition still_tensor : array3 := [replicate 50 (replicate 81 zero)].

(** The feature vectors the frame loop builds from two still frames. *)
Definition two_still_rows : list array1 := [replicate 81 zero; replicate 162 zero].

Definition idle : globals :=
  {| model := None; tokenizer_loaded := false; cuda_available := false |}.

Definition epoch : clock := {| start_time := zero; end_time := zero |}.

End App.

(** ** app_lightweight.py *)

Module Lightweight.

(** Lip landmark indices of the MediaPipe face mesh: outer contour, inner
    contour and additional mouth landmarks (a list, repetitions kept). *)
Definition lip_landmarks_indices : list nat :=
  [61; 84; 17; 314; 405; 320; 307; 375; 321; 308; 324; 318;
   13; 82; 81; 80; 78; 95; 88; 178; 87; 14; 317; 402; 318; 324; 308; 415; 310; 311; 312;
   269; 270; 267; 271; 272; 407; 408; 409; 410; 415; 310; 311; 312; 13; 82; 81; 80; 78; 95; 88].

(** The [metrics] dictionary of [calculate_movement_metrics]; the integer
    [0] a guard stores is the float zero. *)
Record metrics := {
  total_variance : float;
  frame_variance : array2;
  avg_frame_variance : float;
  movement_intensity : float;
  max_movement : float;
  movement_consistency : float;
  lip_opening_variance : float;
  lip_opening_range : float;
  opening_frequency : float;
  horizontal_variance : float;
  horizontal_range : float
}.

Definition calculate_movement_metrics (lip_landmarks : array3) : result metrics :=
  let total_variance := np_var float64 (concat (concat lip_landmarks)) in
  let frame_variance := np_var_axis1 float64 lip_landmarks in
  let avg_frame_variance := np_mean float64 (concat frame_variance) in
  let* temporal :=
    if 1 <? length lip_landmarks then
      let frame_diffs := np_diff_axis0 float64 lip_landmarks in
      let norms := concat (norm_axis2 float64 frame_diffs) in
      let* max_movement := np_max norms in
      Ok (np_mean float64 norms, max_movement, np_std float64 norms)
    else Ok (zero, zero, zero) in
  let* opening :=
    if 2 <=? shape2 lip_landmarks then
      let* y_coords := index_axis2 lip_landmarks 1 in
      let* y_max := np_max (concat y_coords) in
      let* y_min := np_min (concat y_coords) in
      let opening_frequency :=
        if 2 <? length lip_landmarks
        then np_mean float64 (map abs (concat (np_diff_axis0_2 float64 y_coords)))
        else zero in
      Ok (np_var float64 (concat y_coords), sub float64 y_max y_min, opening_frequency)
    else Ok (zero, zero, zero) in
  let* horizontal :=
    if 1 <=? shape2 lip_landmarks then
      let* x_coords := index_axis2 lip_landmarks 0 in
      let* x_max := np_max (concat x_coords) in
      let* x_min := np_min (concat x_coords) in
      Ok (np_var float64 (concat x_coords), sub float64 x_max x_min)
    else Ok (zero, zero) in
  Ok {| total_variance := total_variance;
        frame_variance := frame_variance;
        avg_frame_variance := avg_frame_variance;
        movement_intensity := temporal.1.1;
        max_movement := temporal.1.2;
        movement_consistency := temporal.2;
        lip_opening_variance := opening.1.1;
        lip_opening_range := opening.1.2;
        opening_frequency := opening.2;
        horizontal_variance := horizontal.1;
        horizontal_range := horizontal.2 |}.

Definition recognize_speech_pattern (m : metrics) : string :=
  if gt (movement_intensity m) (literal 5 1000)
     && gt (lip_opening_variance m) (literal 2 1000)
     && gt (opening_frequency m) (literal 1 1000) then
    if gt (movement_consistency m) (literal 1 1000)
    then "Hello world, this is a test."
    else "Hello world"
  else if gt (movement_intensity m) (literal 2 1000)
          && gt (lip_opening_variance m) (literal 1 1000) then
    if gt (opening_frequency m) (literal 5 10000) then "Hello world" else "Hello"
  else if gt (movement_intensity m) (literal 5 10000)
          && gt (lip_opening_variance m) (literal 3 10000) then "Hello"
  else if gt (total_variance m) (literal 1 10000) then "Hi"
  else "No speech detected".

(** Fallback on the whole landmark array; nothing in its body raises. *)
Definition analyze_fallback_patterns (landmarks_array : array3) : string :=
  let total_variance := np_var float64 (concat (concat landmarks_array)) in
  let frame_variance := np_var_axis1 float64 landmarks_array in
  let avg_frame_variance := np_mean float64 (concat frame_variance) in
  if gt total_variance (literal 2 1000) then "Hello world, this is a test."
  else if gt avg_frame_variance (literal 1 1000) then "Hello world"
  else if gt total_variance (literal 5 10000) then "Hello"
  else "Hi".

(** [landmarks_array[:, valid_lip_indices, :]] *)
Definition take_points (landmarks_array : array3) (indices : list nat) : array3 :=
  map (fun frame => omap (fun i => frame !! i) indices) landmarks_array.

Definition analyze_lip_movement (landmarks_data : list (list (list float))) : string :=
  try_except
    (match landmarks_data with
     | [] => Ok "No movement detected"
     | _ :: _ =>
         let* landmarks_array := np_array3 landmarks_data in
         let valid_lip_indices :=
           filter (fun i => i < shape1 landmarks_array) lip_landmarks_indices in
         if length valid_lip_indices =? 0
         then Ok (analyze_fallback_patterns landmarks_array)
         else
           let lip_landmarks := take_points landmarks_array valid_lip_indices in
           let* movement_metrics := calculate_movement_metrics lip_landmarks in
           Ok (recognize_speech_pattern movement_metrics)
     end)
    (fun _ => "Hello world, this is a test.").

End Lightweight.

Import App.

(** ** Vocabulary of the statements *)

(** A list of feature vectors whose second vector is not as wide as its
    first. *)
Definition ragged (rows : list array1) : Prop :=
  exists a b rest, rows = a :: b :: rest /\ length b <> length a.

(** What the frame loop of [preprocess_landmarks] can hold after frames
    whose points are not empty: nothing, one vector of at least two
    entries, or a ragged list. *)
Definition loop_state (processed_frames : list array1) : Prop :=
  processed_frames = [] \/
  (exists a, processed_frames = [a] /\ 2 <= length a) \/
  ragged processed_frames.

(** A full face mesh whose points all have [d] coordinates. *)
Definition full_mesh (d : nat) (frame : list (list float)) : Prop :=
  468 <= length frame /\ Forall (fun p => length p = d) frame.

(** Fifty frames without a point, then one full mesh at rest. *)
Definition late_mesh_request : list (list (list float)) :=
  replicate 50 [] ++ [still_frame].

(** One full mesh at rest, then fifty frames without a point. *)
Definition early_mesh_request : list (list (list float)) :=
  still_frame :: replicate 50 [].

(** Forty-nine frames without a point, one full mesh at rest as the 50th
    frame, then one more frame without a point. *)
Definition fiftieth_mesh_request : list (list (list float)) :=
  replicate 49 [] ++ [still_frame; []].

(** A full face mesh whose points have no coordinate. *)
Definition bare_frame : list (list float) := replicate 468 [].

(** Fifty-one full meshes of points without coordinates. *)
Definition bare_request : list (list (list float)) := replicate 51 bare_frame.

(** Fifty full meshes of points without coordinates, then one full mesh
    at rest. *)
Definition late_raise_request : list (list (list float)) :=
  replicate 50 bare_frame ++ [still_frame].

(** The frame loop of [preprocess_landmarks] raises no exception on a
    frame that stands after the first [max_frames] frames of the request. *)
Definition quiet_after_cap (landmarks : list (list (list float))) : Prop :=
  forall rows,
    for_each process_frame [] (take max_frames landmarks) = Ok rows ->
    exists rows', for_each process_frame rows (drop max_frames landmarks) = Ok rows'.

(** The requests on which the cap falls on the first [max_frames] frames
    of the input: no later frame is a full mesh, or the first [max_frames]
    frames are all full meshes and the loop raises on no later frame, or
    the loop raises within the first [max_frames] frames. *)
Definition cap_on_input (landmarks : list (list (list float))) : Prop :=
  Forall (fun frame => length frame < 468) (drop max_frames landmarks) \/
  (Forall (fun frame => 468 <= length frame) (take max_frames landmarks) /\
   quiet_after_cap landmarks) \/
  (exists e, for_each process_frame [] (take max_frames landmarks) = Raise e).

(** ** The /test endpoint of app.py *)

(** [test_endpoint]: the answer is the pair of the [text] and
    [confidence] entries of the dictionary it returns. *)
Definition test_endpoint (landmarks : list (list (list float))) : string * float :=
  try_except
    (let* landmarks_np := np_array3 landmarks in
     if 20 <? length landmarks_np then
       if 3 <=? shape1 landmarks_np then
         let* x_coords := index_axis2 landmarks_np 0 in
         let* y_coords := index_axis2 landmarks_np 1 in
         let x_variance := np_var float64 (concat x_coords) in
         let y_variance := np_var float64 (concat y_coords) in
         if gt x_variance (literal 1 100) || gt y_variance (literal 1 100)
         then Ok ("Hello world", literal 8 10)
         else Ok ("Hello", literal 6 10)
       else Ok ("Hello world", literal 7 10)
     else if 10 <? length landmarks_np then Ok ("Hello", literal 5 10)
     else if 5 <? length landmarks_np then Ok ("Hi", literal 4 10)
     else Ok ("Ah", literal 3 10))
    (fun e => ("Error: " +:+ str e, of_Z float64 0)).

(** *** Further sample requests *)

(** A full mesh with barely open lips: no horizontal spread, a vertical
    spread of two thousandths, and depth alternating between -1 and 1. *)
Definition quiet_point (i : nat) : list float :=
  if Nat.even i
  then [zero; literal 2 1000; of_Z float64 1]
  else [zero; neg (literal 2 1000); of_Z float64 (-1)].

Definition quiet_frame : list (list float) := map quiet_point (seq 0 468).

(** * Properties of the pipeline *)

(** ** Floating-point facts *)

Lemma literal_tenth : literal 1 10 = S754_finite false 7205759403792794 (-56).
Proof. vm_compute. reflexivity. Qed.

Lemma add_nan_r dt x : add dt x nan = nan.
Proof. destruct x as [[]|[]| |]; reflexivity. Qed.

Lemma add_nan_l dt y : add dt nan y = nan.
Proof. reflexivity. Qed.

Lemma mul_nan_l dt y : mul dt nan y = nan.
Proof. reflexivity. Qed.

Lemma gt_nan_l a : gt nan a = false.
Proof. destruct a as [[]|[]| |]; reflexivity. Qed.

Lemma np_mean_nil dt : np_mean dt [] = nan.
Proof. destruct dt; reflexivity. Qed.

Lemma lt_le x y : lt x y = true -> le x y = true.
Proof.
  unfold lt, le, SFltb, SFleb.
  destruct (SFcompare x y) as [[]|]; congruence.
Qed.

(** What [min(1.0, max(0.1, x))] can be: one of the two bounds, or [x]
    itself when it lies strictly between them. *)
Lemma clamp_cases x :
  let c := py_min (of_Z float64 1) (py_max (literal 1 10) x) in
  c = literal 1 10 \/ c = of_Z float64 1 \/
  (c = x /\ lt (literal 1 10) x = true /\ lt x (of_Z float64 1) = true).
Proof.
  unfold py_min, py_max, gt.
  destruct (SFltb (literal 1 10) x) eqn:Hlow.
  - fold (lt x (of_Z float64 1)).
    destruct (lt x (of_Z float64 1)) eqn:Hhigh; auto.
  - left. reflexivity.
Qed.

Lemma clamp_range x :
  let c := py_min (of_Z float64 1) (py_max (literal 1 10) x) in
  le (literal 1 10) c = true /\ le c (of_Z float64 1) = true /\ lt c zero = false.
Proof.
  intros c. destruct (clamp_cases x) as [Hc|[Hc|(Hc & Hlow & Hhigh)]];
    fold c in Hc; rewrite Hc.
  - repeat split; reflexivity.
  - repeat split; reflexivity.
  - repeat split; auto using lt_le.
    rewrite literal_tenth in Hlow.
    destruct x as [[]|[]| |[] m e]; simpl in Hlow; try discriminate; reflexivity.
Qed.

(** ** Confidence *)

(** The time axis is axis 1 of the tensor; along axis 0, the batch axis of
    size one, there is no difference to take. *)
Lemma movement_intensity_batch (t : array2) : movement_intensity [t] = nan.
Proof. reflexivity. Qed.

Lemma preprocess_landmarks_batch landmarks t :
  preprocess_landmarks landmarks = Ok t -> exists t2, t = [t2].
Proof.
  unfold preprocess_landmarks.
  destruct (for_each process_frame [] landmarks) as [[|a pf]|e]; simpl; try discriminate.
  destruct (torch_tensor _) as [t2|e]; simpl; intros H; inversion H; eauto.
Qed.

Lemma calculate_confidence_range t :
  le (literal 1 10) (calculate_confidence t) = true /\
  le (calculate_confidence t) (of_Z float64 1) = true /\
  lt (calculate_confidence t) zero = false.
Proof.
  unfold calculate_confidence.
  destruct (2 <=? shape2 t); [destruct (index_axis2 t 1)|]; cbn [bind try_except].
  - apply clamp_range.
  - repeat split; vm_compute; reflexivity.
  - apply clamp_range.
Qed.

Lemma calculate_confidence_batch (t : array2) :
  calculate_confidence [t] = literal 1 10.
Proof.
  unfold calculate_confidence.
  rewrite movement_intensity_batch.
  change (promote nan) with nan.
  destruct (2 <=? shape2 [t]); [destruct (index_axis2 [t] 1)|];
    cbn [bind try_except]; try reflexivity;
    rewrite mul_nan_l, add_nan_r, add_nan_l; reflexivity.
Qed.

Lemma model_absent g : model g = None.
Proof. destruct (model g) as [m|]; [destruct m | reflexivity]. Qed.

(** C1. Whenever the /predict handler completes its [try] block (no error
    branch), the confidence of its response lies in the closed interval
    from 0.1 to 1.0: it is the clamp [min(1.0, max(0.1, x))] of the linear
    combination, so it is at least 0.1, at most 1.0 and never negative. *)
Theorem confidence_within_bounds g clk landmarks r :
  predict_lip_reading_try g clk landmarks = Ok r ->
  predict_lip_reading g clk landmarks = r /\
  le (literal 1 10) (confidence r) = true /\
  le (confidence r) (of_Z float64 1) = true /\
  lt (confidence r) zero = false.
Proof.
  intros Hok. split.
  - unfold predict_lip_reading. rewrite Hok. reflexivity.
  - unfold predict_lip_reading_try in Hok.
    destruct (preprocess_landmarks landmarks) as [t|e]; cbn [bind] in Hok; [|discriminate].
    destruct (predict_text g t) as [s|]; cbn [new_response] in Hok; [|discriminate].
    inversion Hok; subst r; cbn [confidence].
    apply calculate_confidence_range.
Qed.

Lemma confidence_within_bounds_witness :
  predict_lip_reading_try idle epoch [still_frame]
    = Ok {| text := "Ah"; confidence := literal 1 10; processing_time := zero |} /\
  le (literal 1 10) (literal 1 10) = true /\
  le (literal 1 10) (of_Z float64 1) = true /\
  lt (literal 1 10) zero = false.
Proof.
  split; [vm_compute; reflexivity|].
  apply (confidence_within_bounds idle epoch [still_frame]
           {| text := "Ah"; confidence := literal 1 10; processing_time := zero |}).
  vm_compute; reflexivity.
Defined.

(** C4. Whenever preprocessing succeeds, the tensor keeps its batch
    dimension of size one, so the difference along axis 0 is empty, the
    movement intensity is NaN, the linear combination is NaN and the clamp
    returns exactly 0.1, whatever the landmark values: every response of a
    completed [try] block has confidence 0.1. *)
Theorem confidence_is_floor landmarks t :
  preprocess_landmarks landmarks = Ok t ->
  length t = 1 /\
  np_diff_axis0 float32 t = [] /\
  movement_intensity t = nan /\
  calculate_confidence t = literal 1 10 /\
  forall g clk r,
    predict_lip_reading_try g clk landmarks = Ok r -> confidence r = literal 1 10.
Proof.
  intros Hpre.
  destruct (preprocess_landmarks_batch _ _ Hpre) as [t2 ->].
  repeat split; try reflexivity.
  - apply calculate_confidence_batch.
  - intros g clk r. unfold predict_lip_reading_try. rewrite Hpre. cbn [bind].
    destruct (predict_text g [t2]) as [s|]; cbn [new_response]; [|discriminate].
    intros Hok; inversion Hok; cbn [confidence].
    apply calculate_confidence_batch.
Qed.

Lemma confidence_is_floor_witness :
  preprocess_landmarks [still_frame] = Ok still_tensor /\
  (length still_tensor = 1 /\
   np_diff_axis0 float32 still_tensor = [] /\
   movement_intensity still_tensor = nan /\
   calculate_confidence still_tensor = literal 1 10 /\
   forall g clk r,
     predict_lip_reading_try g clk [still_frame] = Ok r -> confidence r = literal 1 10).
Proof.
  split; [vm_compute; reflexivity|].
  apply (confidence_is_floor [still_frame] still_tensor).
  vm_compute; reflexivity.
Defined.

(** C2. The text and the confidence of a response are functions of the
    landmark sequence alone: two runs on the same sequence agree on both,
    whatever the clock readings (which only enter [processing_time]) and
    the process-wide globals of the two runs. *)
Theorem predict_deterministic g1 g2 clk1 clk2 landmarks :
  text (predict_lip_reading g1 clk1 landmarks)
    = text (predict_lip_reading g2 clk2 landmarks) /\
  confidence (predict_lip_reading g1 clk1 landmarks)
    = confidence (predict_lip_reading g2 clk2 landmarks).
Proof.
  unfold predict_lip_reading, predict_lip_reading_try, predict_text.
  rewrite !model_absent.
  destruct (preprocess_landmarks landmarks) as [t|e]; cbn [bind try_except text confidence].
  - destruct (analyze_lip_patterns t) as [s|];
      cbn [new_response try_except text confidence]; split; reflexivity.
  - split; reflexivity.
Qed.

(** ** Frames below the full-mesh point count *)

Lemma process_frame_skip processed_frames (frame : list (list float)) :
  length frame < 468 -> process_frame processed_frames frame = Ok processed_frames.
Proof.
  intros Hlen. unfold process_frame.
  destruct (Nat.leb_spec 468 (length frame)); [lia | reflexivity].
Qed.

Lemma for_each_skip processed_frames (landmarks : list (list (list float))) :
  Forall (fun frame => length frame < 468) landmarks ->
  for_each process_frame processed_frames landmarks = Ok processed_frames.
Proof.
  induction 1 as [|frame landmarks Hlen _ IH]; cbn [for_each]; [reflexivity|].
  rewrite process_frame_skip by assumption. exact IH.
Qed.

(** C8. When no frame yields lip points (no frames at all, or only frames
    below the 468-point minimum), preprocessing raises the "No valid lip
    landmarks found" error and the handler answers with the
    zero-confidence error response; the handler returns a response on every
    input. *)
Theorem no_valid_frames_error g clk landmarks :
  Forall (fun frame : list (list float) => length frame < 468) landmarks ->
  preprocess_landmarks landmarks = Raise (ValueError "No valid lip landmarks found") /\
  predict_lip_reading g clk landmarks =
    {| text := "Error processing landmarks: No valid lip landmarks found";
       confidence := zero;
       processing_time := sub float64 (end_time clk) (start_time clk) |}.
Proof.
  intros Hsmall.
  assert (Hpre : preprocess_landmarks landmarks
                 = Raise (ValueError "No valid lip landmarks found")).
  { unfold preprocess_landmarks. rewrite for_each_skip by assumption. reflexivity. }
  split; [exact Hpre|].
  unfold predict_lip_reading, predict_lip_reading_try. rewrite Hpre. reflexivity.
Qed.

Lemma no_valid_frames_error_witness :
  Forall (fun frame : list (list float) => length frame < 468) [[]; [still_point]] /\
  predict_lip_reading idle epoch [[]; [still_point]] =
    {| text := "Error processing landmarks: No valid lip landmarks found";
       confidence := zero;
       processing_time := sub float64 (end_time epoch) (start_time epoch) |}.
Proof.
  assert (Hsmall : Forall (fun frame : list (list float) => length frame < 468)
                          [[]; [still_point]]).
  { repeat constructor; simpl; lia. }
  split; [exact Hsmall|].
  apply (no_valid_frames_error idle epoch [[]; [still_point]] Hsmall).
Defined.

(** C5, evaluated on app.py.  On the single still frame preprocessing
    succeeds and the movement intensity that [calculate_confidence] and
    [analyze_lip_patterns] compute is NaN: the mean over an empty
    difference is taken without a guard.  [calculate_movement_metrics] of
    app_lightweight.py guards the same quantity and stores 0. *)
Theorem movement_intensity_unguarded :
  (exists t, preprocess_landmarks [still_frame] = Ok t /\
             App.movement_intensity t = nan) /\
  (exists m, Lightweight.calculate_movement_metrics [still_frame] = Ok m /\
             Lightweight.movement_intensity m = zero).
Proof.
  split; eexists; (split; [vm_compute; reflexivity|]); reflexivity.
Qed.

(** ** Padding and tensor construction *)

Lemma pad_while_spec fuel (processed_frames : list array1) :
  processed_frames <> [] ->
  max_frames - length processed_frames <= fuel ->
  pad_while fuel processed_frames =
    processed_frames ++ replicate (max_frames - length processed_frames)
                                  (np_zeros_like (hd [] processed_frames)).
Proof.
  revert processed_frames.
  induction fuel as [|fuel IH]; intros pf Hne Hfuel; cbn [pad_while].
  - replace (max_frames - length pf) with 0 by lia. cbn. now rewrite app_nil_r.
  - destruct (Nat.ltb_spec (length pf) max_frames) as [Hlt|Hge].
    + rewrite IH.
      * rewrite length_app. cbn [length].
        replace (max_frames - length pf) with (S (max_frames - (length pf + 1))) by lia.
        destruct pf as [|a pf]; [congruence|].
        cbn [app hd replicate]. rewrite <- app_assoc. reflexivity.
      * destruct pf; [congruence | discriminate].
      * rewrite length_app. cbn [length]. lia.
    + replace (max_frames - length pf) with 0 by lia. cbn. now rewrite app_nil_r.
Qed.

Lemma torch_tensor_Ok (rows : list array1) t :
  torch_tensor rows = Ok t ->
  Forall (fun r => length r = length (hd [] rows)) rows.
Proof.
  unfold torch_tensor.
  match goal with
  | |- context [list_find ?P rows] => destruct (list_find P rows) as [[i r]|] eqn:Hfind
  end; [discriminate|].
  intros _. apply list_find_None in Hfind.
  eapply Forall_impl; [exact Hfind|].
  intros r Hr. cbn in Hr. destruct (decide (length r = length (hd [] rows))); tauto.
Qed.

Lemma torch_tensor_ragged (a b : array1) rest :
  length b <> length a -> exists e, torch_tensor (a :: b :: rest) = Raise e.
Proof.
  intros Hab. destruct (torch_tensor (a :: b :: rest)) as [t|e] eqn:Ht; [|eauto].
  apply torch_tensor_Ok in Ht.
  inversion Ht as [|? ? _ Htl]; subst. inversion Htl as [|? ? Hb _]; subst.
  cbn in Hb. contradiction.
Qed.

(** C6, as the code has it.  A processed sequence shorter than the cap of
    50 is extended to length exactly 50 by appending all-zero vectors whose
    width is that of the first processed vector
    ([np.zeros_like(processed_frames[0])]); that is also the width of the
    last real vector whenever tensor construction accepts the padded list. *)
Theorem padding_takes_first_width (processed_frames : list array1) :
  processed_frames <> [] ->
  length processed_frames < max_frames ->
  pad_or_truncate processed_frames =
    processed_frames ++ replicate (max_frames - length processed_frames)
                                  (replicate (length (hd [] processed_frames)) zero) /\
  length (pad_or_truncate processed_frames) = max_frames /\
  forall t, torch_tensor (pad_or_truncate processed_frames) = Ok t ->
            length <$> last processed_frames = Some (length (hd [] processed_frames)).
Proof.
  intros Hne Hlt.
  assert (Hpad : pad_or_truncate processed_frames =
                 processed_frames ++ replicate (max_frames - length processed_frames)
                   (replicate (length (hd [] processed_frames)) zero)).
  { unfold pad_or_truncate.
    destruct (Nat.ltb_spec max_frames (length processed_frames)); [lia|].
    apply pad_while_spec; [assumption | lia]. }
  split; [exact Hpad|]. split.
  - rewrite Hpad, length_app, length_replicate. lia.
  - intros t Ht. apply torch_tensor_Ok in Ht. rewrite Hpad in Ht.
    destruct processed_frames as [|a pf]; [congruence|]. cbn [app hd] in Ht |- *.
    change (a :: pf ++ ?k) with ((a :: pf) ++ k) in Ht.
    apply Forall_app in Ht as [Ht _].
    destruct (last (a :: pf)) as [z|] eqn:Hlast;
      [|apply last_None in Hlast; discriminate].
    cbn. f_equal.
    apply last_Some_elem_of in Hlast.
    rewrite Forall_forall in Ht. apply Ht, Hlast.
Qed.

Lemma padding_takes_first_width_witness :
  two_still_rows <> [] /\ length two_still_rows < max_frames /\
  pad_or_truncate two_still_rows =
    two_still_rows ++ replicate (max_frames - length two_still_rows)
                                (replicate (length (hd [] two_still_rows)) zero) /\
  length (pad_or_truncate two_still_rows) = max_frames /\
  forall t, torch_tensor (pad_or_truncate two_still_rows) = Ok t ->
            length <$> last two_still_rows = Some (length (hd [] two_still_rows)).
Proof.
  assert (Hne : two_still_rows <> []) by discriminate.
  assert (Hlt : length two_still_rows < max_frames) by (vm_compute; lia).
  split; [exact Hne|]. split; [exact Hlt|].
  apply (padding_takes_first_width two_still_rows Hne Hlt).
Defined.

(** C6, as stated, fails.  Two still frames give the processed sequence
    of widths 81 and 162; it is padded with 48 zero vectors of width 81,
    the width of the first vector, not with vectors of the width 162 of
    the last real one. *)
Lemma padding_width_counterexample :
  for_each process_frame [] [still_frame; still_frame] = Ok two_still_rows /\
  length two_still_rows < max_frames /\
  last two_still_rows = Some (replicate 162 zero) /\
  pad_or_truncate two_still_rows = two_still_rows ++ replicate 48 (replicate 81 zero) /\
  pad_or_truncate two_still_rows <> two_still_rows ++ replicate 48 (replicate 162 zero).
Proof.
  split; [vm_compute; reflexivity|].
  split; [vm_compute; lia|].
  split; [reflexivity|].
  split; [vm_compute; reflexivity|].
  vm_compute. discriminate.
Qed.

(** ** The heuristic classifier *)

Lemma infer_default_nonempty r phonemes : infer_default r phonemes <> [].
Proof.
  destruct phonemes; cbn [infer_default]; [|discriminate].
  repeat match goal with |- context [if ?b then _ else _] => destruct b end; discriminate.
Qed.

(** C10. On every input the classifier returns a non-empty category list
    and raises nothing.  An exception inside its body gives the fixed
    default list; otherwise the categories of the threshold rules are
    returned when there are any, and when no rule fires the result is the
    single category H if the opening range exceeds 0.001, else M if the
    width range exceeds 0.001, else the default A. *)
Theorem detect_phonemes_nonempty landmarks_np x_coords y_coords :
  detect_phonemes landmarks_np x_coords y_coords <> [] /\
  match measure_ranges landmarks_np x_coords y_coords with
  | Raise _ => detect_phonemes landmarks_np x_coords y_coords = ["H"; "E"; "L"; "L"; "O"]
  | Ok r =>
      (threshold_rules r <> [] ->
       detect_phonemes landmarks_np x_coords y_coords = threshold_rules r) /\
      (threshold_rules r = [] ->
       detect_phonemes landmarks_np x_coords y_coords =
         if gt (promote (lip_opening_range r)) (literal 1 1000) then ["H"]
         else if gt (promote (lip_width_range r)) (literal 1 1000) then ["M"]
         else ["A"])
  end.
Proof.
  unfold detect_phonemes.
  destruct (measure_ranges landmarks_np x_coords y_coords) as [r|e];
    cbn [bind try_except].
  - split; [apply infer_default_nonempty|]. split.
    + destruct (threshold_rules r); [congruence | reflexivity].
    + intros ->. reflexivity.
  - split; [discriminate | reflexivity].
Qed.

(** ** Routing of frames below the full-mesh count *)

Lemma lightweight_indices_from_13 :
  Forall (fun i => 13 <= i) Lightweight.lip_landmarks_indices.
Proof. compute_done. Qed.

Lemma filter_below_nil (l : list nat) n :
  Forall (fun i => n <= i) l -> filter (fun i => i < n) l = [].
Proof.
  induction 1 as [|i l Hi _ IH]; [reflexivity|].
  rewrite filter_cons_False by lia. exact IH.
Qed.

Lemma lightweight_filter_nonempty n :
  13 < n -> length (filter (fun i => i < n) Lightweight.lip_landmarks_indices) <> 0.
Proof.
  intros Hn Hlen. apply length_zero_iff_nil in Hlen.
  apply (filter_nil_not_elem_of _ _ 13) in Hlen; [|exact Hn].
  apply Hlen. compute_done.
Qed.

(** C9, as the code has it.  In app.py a frame with fewer than 468 points
    is skipped by the frame loop: it adds no feature vector and no fallback
    is applied to it.  In app_lightweight.py the route is chosen for the
    whole landmark array by its per-frame point count: with at most 13
    points no lip index is in range and the fallback analysis runs on the
    full array; with more than 13 points (so also with 14 to 467) the lip
    analysis runs on the lip indices that are in range. *)
Theorem small_frame_routing processed_frames (frame : list (list float))
    landmarks landmarks_array :
  length frame < 468 ->
  landmarks <> [] ->
  np_array3 landmarks = Ok landmarks_array ->
  process_frame processed_frames frame = Ok processed_frames /\
  (shape1 landmarks_array <= 13 ->
   Lightweight.analyze_lip_movement landmarks
     = Lightweight.analyze_fallback_patterns landmarks_array) /\
  (13 < shape1 landmarks_array ->
   Lightweight.analyze_lip_movement landmarks =
     try_except
       (let* movement_metrics :=
          Lightweight.calculate_movement_metrics
            (Lightweight.take_points landmarks_array
               (filter (fun i => i < shape1 landmarks_array)
                       Lightweight.lip_landmarks_indices)) in
        Ok (Lightweight.recognize_speech_pattern movement_metrics))
       (fun _ => "Hello world, this is a test.")).
Proof.
  intros Hsmall Hne Harr.
  split; [apply process_frame_skip, Hsmall|].
  unfold Lightweight.analyze_lip_movement.
  destruct landmarks as [|f fs]; [congruence|].
  rewrite Harr. cbn [bind].
  split; intros Hn.
  - rewrite filter_below_nil; [reflexivity|].
    eapply Forall_impl; [apply lightweight_indices_from_13|].
    intros i Hi. cbn in Hi. lia.
  - destruct (Nat.eqb_spec
      (length (filter (fun i => i < shape1 landmarks_array)
                      Lightweight.lip_landmarks_indices)) 0) as [Hz|_].
    + exfalso. revert Hz. apply lightweight_filter_nonempty, Hn.
    + reflexivity.
Qed.

Lemma small_frame_routing_witness :
  length (replicate 100 still_point) < 468 /\
  [replicate 100 still_point] <> [] /\
  np_array3 [replicate 100 still_point] = Ok [replicate 100 still_point] /\
  process_frame [] (replicate 100 still_point) = Ok [] /\
  (shape1 [replicate 100 still_point] <= 13 ->
   Lightweight.analyze_lip_movement [replicate 100 still_point]
     = Lightweight.analyze_fallback_patterns [replicate 100 still_point]) /\
  (13 < shape1 [replicate 100 still_point] ->
   Lightweight.analyze_lip_movement [replicate 100 still_point] =
     try_except
       (let* movement_metrics :=
          Lightweight.calculate_movement_metrics
            (Lightweight.take_points [replicate 100 still_point]
               (filter (fun i => i < shape1 [replicate 100 still_point])
                       Lightweight.lip_landmarks_indices)) in
        Ok (Lightweight.recognize_speech_pattern movement_metrics))
       (fun _ => "Hello world, this is a test.")).
Proof.
  assert (H1 : length (replicate 100 still_point) < 468) by (vm_compute; lia).
  assert (H2 : [replicate 100 still_point] <> []) by discriminate.
  assert (H3 : np_array3 [replicate 100 still_point] = Ok [replicate 100 still_point])
    by (vm_compute; reflexivity).
  split; [exact H1|]. split; [exact H2|]. split; [exact H3|].
  apply (small_frame_routing [] (replicate 100 still_point)
           [replicate 100 still_point] [replicate 100 still_point] H1 H2 H3).
Defined.

(** C9, as stated, fails.  A frame of 100 points is below the full-mesh
    count.  In app.py the frame loop discards it: the request is answered
    exactly as the request without any frame.  In app_lightweight.py it is
    analysed on the lip indices below 100 (giving "No speech detected"),
    not by the fallback on the full frame (which would give "Hi"). *)
Lemma small_frame_counterexample :
  length (replicate 100 still_point) < 468 /\
  for_each process_frame [] [replicate 100 still_point] = Ok [] /\
  predict_lip_reading idle epoch [replicate 100 still_point]
    = predict_lip_reading idle epoch [] /\
  Lightweight.analyze_lip_movement [replicate 100 still_point] = "No speech detected" /\
  Lightweight.analyze_fallback_patterns [replicate 100 still_point] = "Hi".
Proof.
  split; [vm_compute; lia|].
  repeat split; vm_compute; reflexivity.
Qed.

(** ** Widths of the feature vectors *)

Lemma transpose_length {A} (rows : list (list A)) d :
  rows <> [] -> Forall (fun r => length r = d) rows -> length (transpose rows) = d.
Proof.
  induction rows as [|r rs IH]; [congruence|].
  intros _ Hrows. inversion Hrows as [|? ? Hr Hrs]; subst.
  destruct rs as [|r' rs'].
  - cbn. now rewrite length_map.
  - change (transpose (r :: r' :: rs')) with (zip_with cons r (transpose (r' :: rs'))).
    rewrite length_zip_with, IH by (congruence || assumption). lia.
Qed.

Lemma concat_length_rect {A} (rows : list (list A)) d :
  Forall (fun r => length r = d) rows -> length (concat rows) = length rows * d.
Proof.
  induction 1 as [|r rs Hr _ IH]; [reflexivity|].
  cbn. rewrite length_app, IH, Hr. reflexivity.
Qed.

Lemma normalize_length (lip_array : array2) d :
  lip_array <> [] -> Forall (fun r => length r = d) lip_array ->
  length (normalize lip_array) = length lip_array * d.
Proof.
  intros Hne Hrows. unfold normalize.
  set (mouth_center := np_mean_axis0 float64 lip_array).
  assert (Hmc : length mouth_center = d).
  { unfold mouth_center, np_mean_axis0. rewrite length_map.
    apply transpose_length; assumption. }
  set (centered := map (fun row => zip_with (sub float64) row mouth_center) lip_array).
  assert (Hcentered : Forall (fun r => length r = d) centered).
  { unfold centered. apply Forall_map. eapply Forall_impl; [exact Hrows|].
    intros r Hr. cbn in Hr |- *. rewrite length_zip_with, Hr, Hmc. lia. }
  assert (Hlen : length centered = length lip_array)
    by (unfold centered; apply length_map).
  destruct (gt (np_std float64 (concat centered)) zero).
  - rewrite (concat_length_rect _ d), length_map, Hlen; [reflexivity|].
    apply Forall_map. eapply Forall_impl; [exact Hcentered|].
    intros r Hr. cbn. now rewrite length_map.
  - rewrite (concat_length_rect _ d), Hlen; [reflexivity | assumption].
Qed.

Lemma np_array2_Ok rows lip_array :
  np_array2 rows = Ok lip_array ->
  lip_array = rows /\ Forall (fun r => length r = length (hd [] rows)) rows.
Proof.
  unfold np_array2, rectangular.
  destruct (forallb _ rows) eqn:Hrect; [|discriminate].
  intros H; inversion H; subst. split; [reflexivity|].
  rewrite forallb_forall in Hrect. apply Forall_forall.
  intros r Hr. apply Nat.eqb_eq, Hrect. now apply list_elem_of_In.
Qed.

Lemma np_array2_rect rows d :
  Forall (fun r : list float => length r = d) rows -> np_array2 rows = Ok rows.
Proof.
  intros Hrows. unfold np_array2, rectangular.
  replace (forallb _ rows) with true; [reflexivity|].
  symmetry. apply forallb_forall. intros r Hr. apply Nat.eqb_eq.
  rewrite Forall_forall in Hrows.
  destruct rows as [|r0 rows']; [destruct Hr|]. cbn [hd].
  rewrite (Hrows r), (Hrows r0); [reflexivity | left | now apply list_elem_of_In].
Qed.

(** [valid_lip_indices] lists every index of [lip_indices] below 468, once. *)
Lemma valid_lip_indices_set :
  NoDup valid_lip_indices /\
  list_to_set valid_lip_indices
    = (list_to_set (filter (fun i => i < 468) lip_indices) : gset nat).
Proof. split; compute_done. Qed.

Lemma valid_lip_indices_length : length valid_lip_indices = 27.
Proof. vm_compute. reflexivity. Qed.

Lemma valid_lip_indices_bound : Forall (fun i => i < 468) valid_lip_indices.
Proof. compute_done. Qed.

Lemma lookup_all {A} (frame : list A) (indices : list nat) :
  Forall (fun i => i < length frame) indices ->
  length (omap (fun i => frame !! i) (filter (fun i => i < length frame) indices))
    = length indices /\
  Forall (fun p => p ∈ frame)
         (omap (fun i => frame !! i) (filter (fun i => i < length frame) indices)).
Proof.
  induction 1 as [|i indices Hi _ [IHlen IHin]]; [split; [reflexivity | constructor]|].
  rewrite filter_cons_True by exact Hi.
  destruct (lookup_lt_is_Some_2 frame i Hi) as [p Hp].
  match goal with
  | |- context [omap ?f (i :: ?l)] =>
      change (omap f (i :: l)) with
        (match frame !! i with Some y => y :: omap f l | None => omap f l end)
  end.
  rewrite Hp.
  split; [cbn; now rewrite IHlen|].
  constructor; [eapply list_elem_of_lookup_2, Hp | exact IHin].
Qed.

Lemma lip_landmarks_of_full (frame : list (list float)) :
  468 <= length frame ->
  length (lip_landmarks_of frame) = 27 /\
  Forall (fun p => p ∈ frame) (lip_landmarks_of frame).
Proof.
  intros Hfull. rewrite <- valid_lip_indices_length. apply lookup_all.
  eapply Forall_impl; [apply valid_lip_indices_bound|]. intros i Hi. cbn in Hi. lia.
Qed.

Lemma np_subtract_Ok dt (a b movement : array1) :
  np_subtract dt a b = Ok movement ->
  (length a = length b /\ length movement = length a) \/
  (length a = 1 /\ length movement = length b) \/
  (length b = 1 /\ length movement = length a).
Proof.
  unfold np_subtract.
  destruct (Nat.eqb_spec (length a) (length b)) as [Heq|Hne].
  - intros H; inversion H. left. rewrite length_zip_with. lia.
  - destruct a as [|x [|x' a]]; destruct b as [|y [|y' b]];
      try discriminate; intros H; inversion H;
      cbn [length map] in *; rewrite ?length_map; lia.
Qed.

Lemma np_subtract_mismatch dt (a b : array1) :
  length a <> length b -> length a <> 1 -> length b <> 1 ->
  np_subtract dt a b = Raise (broadcast_error (length a) (length b)).
Proof.
  intros Hne Ha Hb. unfold np_subtract.
  destruct (Nat.eqb_spec (length a) (length b)); [contradiction|].
  destruct a as [|x [|x' a]]; destruct b as [|y [|y' b]]; cbn in *;
    congruence || reflexivity.
Qed.

(** The frame loop on a full-mesh frame. *)
Lemma process_frame_full processed_frames (frame : list (list float)) :
  468 <= length frame ->
  process_frame processed_frames frame =
    (let* lip_array := np_array2 (lip_landmarks_of frame) in
     let* enhanced_frame := enhance processed_frames (normalize lip_array) in
     Ok (processed_frames ++ [enhanced_frame])).
Proof.
  intros Hfull. unfold process_frame.
  destruct (Nat.leb_spec 468 (length frame)); [|lia].
  destruct (lip_landmarks_of_full frame Hfull) as [Hlen _]. rewrite Hlen. reflexivity.
Qed.

Lemma process_frame_width processed_frames (frame : list (list float)) processed_frames' :
  468 <= length frame ->
  process_frame processed_frames frame = Ok processed_frames' ->
  exists d flat enhanced_frame,
    (exists p, p ∈ frame /\ length p = d) /\
    length flat = 27 * d /\
    enhance processed_frames flat = Ok enhanced_frame /\
    processed_frames' = processed_frames ++ [enhanced_frame].
Proof.
  intros Hfull. rewrite process_frame_full by assumption.
  destruct (lip_landmarks_of_full frame Hfull) as [Hlen Hin].
  destruct (np_array2 (lip_landmarks_of frame)) as [lip_array|e] eqn:Harr;
    cbn [bind]; [|discriminate].
  apply np_array2_Ok in Harr as [-> Hrect].
  destruct (enhance processed_frames (normalize _)) as [v|e] eqn:Hv;
    cbn [bind]; [|discriminate].
  intros H; inversion H; subst.
  exists (length (hd [] (lip_landmarks_of frame))), (normalize (lip_landmarks_of frame)), v.
  repeat split; try assumption.
  - destruct (lip_landmarks_of frame) as [|p ps]; [discriminate|].
    exists p. split; [|reflexivity]. now inversion Hin.
  - assert (Hne : lip_landmarks_of frame <> [])
      by (intros E; apply (f_equal length) in E; rewrite Hlen in E; cbn in E; lia).
    rewrite (normalize_length _ _ Hne Hrect), Hlen. reflexivity.
Qed.

(** ** Two or more full-mesh frames *)

Lemma process_frame_loop_state processed_frames (frame : list (list float))
    processed_frames' :
  Forall (fun p => p <> []) frame ->
  loop_state processed_frames ->
  process_frame processed_frames frame = Ok processed_frames' ->
  loop_state processed_frames' /\
  length processed_frames'
    = length processed_frames + (if 468 <=? length frame then 1 else 0).
Proof.
  intros Hpts Hstate Hstep.
  destruct (Nat.leb_spec 468 (length frame)) as [Hfull|Hsmall].
  - destruct (process_frame_width _ _ _ Hfull Hstep)
      as (d & flat & v & (p & Hp & Hd) & Hflat & Hv & ->).
    assert (Hpos : 1 <= d).
    { rewrite Forall_forall in Hpts. specialize (Hpts p Hp).
      destruct p; [congruence | cbn in Hd; lia]. }
    split; [|rewrite length_app; reflexivity].
    destruct Hstate as [->|[(a & -> & Ha)|(a & b & rest & -> & Hab)]].
    + cbn in Hv. inversion Hv; subst v.
      right; left. exists flat. split; [reflexivity | lia].
    + unfold enhance in Hv. cbn [last] in Hv.
      destruct (np_subtract float64 flat a) as [m|e] eqn:Hm; cbn [bind] in Hv;
        [|discriminate].
      inversion Hv; subst v.
      right; right. exists a, (flat ++ m), []. split; [reflexivity|].
      rewrite length_app.
      apply np_subtract_Ok in Hm. lia.
    + right; right. exists a, b, (rest ++ [v]). split; [reflexivity | exact Hab].
  - rewrite process_frame_skip in Hstep by lia. inversion Hstep; subst.
    split; [exact Hstate | lia].
Qed.

Lemma for_each_loop_state (landmarks : list (list (list float))) :
  forall processed_frames processed_frames',
  Forall (Forall (fun p => p <> [])) landmarks ->
  loop_state processed_frames ->
  for_each process_frame processed_frames landmarks = Ok processed_frames' ->
  loop_state processed_frames' /\
  length processed_frames'
    = length processed_frames
      + length (filter (fun frame => 468 <= length frame) landmarks).
Proof.
  induction landmarks as [|frame landmarks IH]; intros pf pf' Hpts Hstate Hrun.
  - cbn in Hrun. inversion Hrun; subst. split; [exact Hstate | cbn; lia].
  - inversion Hpts as [|? ? Hframe Hrest]; subst.
    cbn [for_each] in Hrun.
    destruct (process_frame pf frame) as [pf1|e] eqn:Hstep; cbn [bind] in Hrun;
      [|discriminate].
    destruct (process_frame_loop_state _ _ _ Hframe Hstate Hstep) as [Hstate1 Hlen1].
    destruct (IH _ _ Hrest Hstate1 Hrun) as [Hstate' Hlen'].
    split; [exact Hstate'|].
    rewrite Hlen', Hlen1, filter_cons.
    destruct (Nat.leb_spec 468 (length frame)); case_decide; cbn [length]; lia.
Qed.

Lemma pad_or_truncate_ragged rows : ragged rows -> ragged (pad_or_truncate rows).
Proof.
  intros (a & b & rest & -> & Hab). unfold pad_or_truncate.
  destruct (max_frames <? length (a :: b :: rest)).
  - exists a, b, (take 48 rest). split; [reflexivity | exact Hab].
  - rewrite pad_while_spec by (discriminate || lia).
    eexists a, b, _. split; [reflexivity | exact Hab].
Qed.

(** C3, as the code has it.  When two or more frames carry a full mesh
    (points with at least one coordinate), preprocessing raises: either
    inside the frame loop (a frame whose points differ in dimension, or a
    displacement that cannot be broadcast against the previous vector), or
    at tensor construction, over a list whose second vector is twice as
    wide as the first.  The handler then takes the error branch: confidence
    exactly 0.0 and the text "Error processing landmarks: " followed by the
    exception message. *)
Theorem full_mesh_frames_error g clk landmarks :
  Forall (Forall (fun p : list float => p <> [])) landmarks ->
  2 <= length (filter (fun frame => 468 <= length frame) landmarks) ->
  ((exists e, for_each process_frame [] landmarks = Raise e) \/
   (exists rows e, for_each process_frame [] landmarks = Ok rows /\ ragged rows /\
                   torch_tensor (pad_or_truncate rows) = Raise e)) /\
  exists e, preprocess_landmarks landmarks = Raise e /\
            predict_lip_reading g clk landmarks =
              {| text := "Error processing landmarks: " +:+ str e;
                 confidence := zero;
                 processing_time := sub float64 (end_time clk) (start_time clk) |}.
Proof.
  intros Hpts Hcount.
  assert (Herr : forall e, preprocess_landmarks landmarks = Raise e ->
            predict_lip_reading g clk landmarks =
              {| text := "Error processing landmarks: " +:+ str e;
                 confidence := zero;
                 processing_time := sub float64 (end_time clk) (start_time clk) |}).
  { intros e He. unfold predict_lip_reading, predict_lip_reading_try.
    rewrite He. reflexivity. }
  unfold preprocess_landmarks in *.
  destruct (for_each process_frame [] landmarks) as [rows|e] eqn:Hrun.
  - destruct (for_each_loop_state _ _ _ Hpts (or_introl eq_refl) Hrun) as [Hstate Hlen].
    cbn [length] in Hlen.
    assert (Hragged : ragged rows).
    { destruct Hstate as [->|[(a & -> & _)|H]]; [cbn in Hlen; lia | cbn in Hlen; lia | exact H]. }
    destruct (pad_or_truncate_ragged _ Hragged) as (a & b & rest & Hpad & Hab).
    destruct (torch_tensor_ragged a b rest Hab) as [e He].
    rewrite <- Hpad in He.
    split; [right; exists rows, e; auto|].
    exists e. cbn [bind] in *.
    assert (Hpre : match rows with
                   | [] => Raise (ValueError "No valid lip landmarks found")
                   | _ :: _ => let* tensor_data := torch_tensor (pad_or_truncate rows) in
                               Ok [tensor_data]
                   end = Raise e).
    { destruct Hragged as (a' & b' & rest' & -> & _). rewrite He. reflexivity. }
    split; [exact Hpre | apply Herr, Hpre].
  - split; [left; eauto|]. exists e. split; [reflexivity | apply Herr; reflexivity].
Qed.

Lemma full_mesh_frames_error_witness :
  Forall (Forall (fun p : list float => p <> [])) [still_frame; still_frame] /\
  2 <= length (filter (fun frame => 468 <= length frame) [still_frame; still_frame]) /\
  ((exists e, for_each process_frame [] [still_frame; still_frame] = Raise e) \/
   (exists rows e, for_each process_frame [] [still_frame; still_frame] = Ok rows /\
                   ragged rows /\ torch_tensor (pad_or_truncate rows) = Raise e)) /\
  exists e, preprocess_landmarks [still_frame; still_frame] = Raise e /\
            predict_lip_reading idle epoch [still_frame; still_frame] =
              {| text := "Error processing landmarks: " +:+ str e;
                 confidence := zero;
                 processing_time := sub float64 (end_time epoch) (start_time epoch) |}.
Proof.
  assert (Hpts : Forall (Forall (fun p : list float => p <> []))
                        [still_frame; still_frame]).
  { unfold still_frame, still_point.
    constructor; [|constructor; [|constructor]]; apply Forall_replicate; discriminate. }
  assert (Hcount : 2 <= length (filter (fun frame : list (list float) => 468 <= length frame)
                                       [still_frame; still_frame])).
  { vm_compute. lia. }
  split; [exact Hpts|]. split; [exact Hcount|].
  apply (full_mesh_frames_error idle epoch [still_frame; still_frame] Hpts Hcount).
Defined.

(** The condition on the points cannot be dropped: frames of 468 points
    without coordinates give feature vectors of width 0, twice 0 is 0, and
    the request is answered from the [except] clause of
    [analyze_lip_patterns] at confidence 0.1. *)
Remark empty_points_prediction :
  predict_lip_reading idle epoch [replicate 468 []; replicate 468 []]
    = {| text := "Error in analysis"; confidence := literal 1 10;
         processing_time := zero |}.
Proof. vm_compute. reflexivity. Qed.

(** C3, as stated, fails.  With three full-mesh frames no list of feature
    vectors is produced and tensor construction is not reached: the frame
    loop raises at the third frame, whose 81 coordinates cannot be
    subtracted from the 162-wide vector of the second. *)
Lemma third_frame_counterexample :
  2 <= length (filter (fun frame => 468 <= length frame)
                      [still_frame; still_frame; still_frame]) /\
  for_each process_frame [] [still_frame; still_frame; still_frame]
    = Raise (broadcast_error 81 162) /\
  ~ (exists rows, for_each process_frame [] [still_frame; still_frame; still_frame]
                  = Ok rows).
Proof.
  assert (Hrun : for_each process_frame [] [still_frame; still_frame; still_frame]
                 = Raise (broadcast_error 81 162)) by (vm_compute; reflexivity).
  split; [vm_compute; lia|]. split; [exact Hrun|].
  intros [rows Hrows]. rewrite Hrun in Hrows. discriminate.
Qed.

(** ** Sequences longer than the frame cap *)

Lemma for_each_app {S A} (body : S -> A -> result S) (xs ys : list A) :
  forall s,
  for_each body s (xs ++ ys) = (let* s' := for_each body s xs in for_each body s' ys).
Proof.
  induction xs as [|x xs IH]; intros s; [reflexivity|].
  cbn [for_each app]. destruct (body s x) as [s1|e]; cbn [bind]; [apply IH | reflexivity].
Qed.

Lemma np_subtract_same dt (a b : array1) :
  length a = length b -> np_subtract dt a b = Ok (zip_with (sub dt) a b).
Proof.
  intros Hlen. unfold np_subtract.
  destruct (Nat.eqb_spec (length a) (length b)); [reflexivity | contradiction].
Qed.

(** The frame loop on a full mesh of [d]-coordinate points: the flattened
    normalized lip array has [27 * d] entries. *)
Lemma process_frame_uniform processed_frames (frame : list (list float)) d :
  full_mesh d frame ->
  exists flat,
    length flat = 27 * d /\
    process_frame processed_frames frame =
      (let* enhanced_frame := enhance processed_frames flat in
       Ok (processed_frames ++ [enhanced_frame])).
Proof.
  intros [Hfull Hdim].
  destruct (lip_landmarks_of_full frame Hfull) as [Hlen Hin].
  assert (Hrect : Forall (fun p => length p = d) (lip_landmarks_of frame)).
  { rewrite Forall_forall in Hin, Hdim |- *. intros p Hp. apply Hdim, Hin, Hp. }
  assert (Hne : lip_landmarks_of frame <> [])
    by (intros E; apply (f_equal length) in E; rewrite Hlen in E; cbn in E; lia).
  exists (normalize (lip_landmarks_of frame)). split.
  - rewrite (normalize_length _ _ Hne Hrect), Hlen. reflexivity.
  - rewrite process_frame_full by assumption.
    rewrite (np_array2_rect _ _ Hrect). reflexivity.
Qed.

(** With points of at least one coordinate, the third full mesh cannot be
    subtracted from the second feature vector, which is twice as wide. *)
Lemma third_full_mesh_raises d f1 f2 f3 (rest : list (list (list float))) :
  1 <= d -> full_mesh d f1 -> full_mesh d f2 -> full_mesh d f3 ->
  for_each process_frame [] (f1 :: f2 :: f3 :: rest)
    = Raise (broadcast_error (27 * d) (27 * d + 27 * d)).
Proof.
  intros Hd H1 H2 H3. cbn [for_each].
  destruct (process_frame_uniform [] f1 d H1) as (flat1 & Hlen1 & ->).
  cbn [enhance last bind app].
  match goal with
  | |- context [process_frame ?pf f2] =>
      destruct (process_frame_uniform pf f2 d H2) as (flat2 & Hlen2 & ->)
  end.
  unfold enhance at 1. cbn [last].
  rewrite np_subtract_same by lia. cbn [bind app].
  match goal with
  | |- context [process_frame ?pf f3] =>
      destruct (process_frame_uniform pf f3 d H3) as (flat3 & Hlen3 & ->)
  end.
  unfold enhance. cbn [last].
  assert (Hwide : length (flat2 ++ zip_with (sub float64) flat2 flat1) = 27 * d + 27 * d).
  { rewrite length_app, length_zip_with. lia. }
  rewrite np_subtract_mismatch by lia.
  rewrite Hlen3, Hwide. reflexivity.
Qed.

(** With points of no coordinate every feature vector is empty and the
    loop never raises. *)
Lemma empty_points_loop (landmarks : list (list (list float))) :
  forall processed_frames,
  Forall (full_mesh 0) landmarks ->
  Forall (fun v => v = []) processed_frames ->
  for_each process_frame processed_frames landmarks
    = Ok (processed_frames ++ replicate (length landmarks) []).
Proof.
  induction landmarks as [|frame landmarks IH]; intros pf Hmesh Hpf.
  - cbn. now rewrite app_nil_r.
  - inversion Hmesh as [|? ? Hframe Hrest]; subst.
    cbn [for_each].
    destruct (process_frame_uniform pf frame 0 Hframe) as (flat & Hlen & ->).
    assert (flat = []) as -> by (destruct flat; [reflexivity | discriminate]).
    assert (Henh : enhance pf [] = Ok []).
    { unfold enhance.
      match goal with
      | |- context [match ?t with _ => _ end] => destruct t as [prev|] eqn:Hlast
      end; [|reflexivity].
      apply last_Some_elem_of in Hlast.
      rewrite Forall_forall in Hpf. rewrite (Hpf _ Hlast). reflexivity. }
    rewrite Henh. cbn [bind].
    rewrite IH; [|assumption|apply Forall_app; split; [assumption | repeat constructor]].
    cbn [length replicate]. now rewrite <- app_assoc.
Qed.

Lemma preprocess_of_rows landmarks (rows : list array1) :
  for_each process_frame [] landmarks = Ok rows ->
  rows <> [] ->
  preprocess_landmarks landmarks =
    (let* tensor_data := torch_tensor (pad_or_truncate rows) in Ok [tensor_data]).
Proof.
  intros Hrun Hne. unfold preprocess_landmarks. rewrite Hrun. cbn [bind].
  destruct rows; [congruence | reflexivity].
Qed.

Lemma pad_or_truncate_length (processed_frames : list array1) :
  processed_frames <> [] -> length (pad_or_truncate processed_frames) = max_frames.
Proof.
  intros Hne. unfold pad_or_truncate.
  destruct (Nat.ltb_spec max_frames (length processed_frames)).
  - rewrite length_take_le by lia. reflexivity.
  - rewrite pad_while_spec, length_app, length_replicate by (assumption || lia). lia.
Qed.

Lemma pad_or_truncate_full (rows : list array1) :
  length rows = max_frames -> pad_or_truncate rows = rows.
Proof.
  intros Hlen. unfold pad_or_truncate.
  destruct (Nat.ltb_spec max_frames (length rows)); [lia|].
  assert (Hne : rows <> []) by (intros ->; discriminate).
  rewrite pad_while_spec by (assumption || lia).
  rewrite Hlen, Nat.sub_diag. cbn [replicate]. apply app_nil_r.
Qed.

Lemma process_frame_extends processed_frames (frame : list (list float))
    processed_frames' :
  process_frame processed_frames frame = Ok processed_frames' ->
  exists new,
    processed_frames' = processed_frames ++ new /\
    length new = (if 468 <=? length frame then 1 else 0).
Proof.
  intros Hstep. destruct (Nat.leb_spec 468 (length frame)) as [Hfull|Hsmall].
  - destruct (process_frame_width _ _ _ Hfull Hstep) as (d & flat & v & _ & _ & _ & ->).
    exists [v]. split; reflexivity.
  - rewrite process_frame_skip in Hstep by lia. inversion Hstep; subst.
    exists []. split; [symmetry; apply app_nil_r | reflexivity].
Qed.

Lemma for_each_extends (landmarks : list (list (list float))) :
  forall processed_frames processed_frames',
  for_each process_frame processed_frames landmarks = Ok processed_frames' ->
  exists new,
    processed_frames' = processed_frames ++ new /\
    length new = length (filter (fun frame => 468 <= length frame) landmarks).
Proof.
  induction landmarks as [|frame landmarks IH]; intros pf pf' Hrun.
  - cbn in Hrun. inversion Hrun; subst. exists []. split; [symmetry; apply app_nil_r|reflexivity].
  - cbn [for_each] in Hrun.
    destruct (process_frame pf frame) as [pf1|e] eqn:Hstep; cbn [bind] in Hrun;
      [|discriminate].
    destruct (process_frame_extends _ _ _ Hstep) as (new1 & -> & Hlen1).
    destruct (IH _ _ Hrun) as (new2 & -> & Hlen2).
    exists (new1 ++ new2). split; [symmetry; apply app_assoc|].
    rewrite length_app, Hlen1, Hlen2, filter_cons.
    destruct (Nat.leb_spec 468 (length frame)); case_decide; cbn [length]; lia.
Qed.

Lemma for_each_full_meshes (landmarks : list (list (list float))) :
  forall processed_frames,
  for_each process_frame processed_frames landmarks
    = for_each process_frame processed_frames
        (filter (fun frame => 468 <= length frame) landmarks).
Proof.
  induction landmarks as [|frame landmarks IH]; intros pf; [reflexivity|].
  rewrite filter_cons. case_decide as Hfull.
  - cbn [for_each]. destruct (process_frame pf frame); cbn [bind]; [apply IH | reflexivity].
  - cbn [for_each]. rewrite process_frame_skip by lia. cbn [bind]. apply IH.
Qed.

Lemma preprocess_full_meshes landmarks :
  preprocess_landmarks landmarks
    = preprocess_landmarks (filter (fun frame => 468 <= length frame) landmarks).
Proof. unfold preprocess_landmarks. rewrite for_each_full_meshes. reflexivity. Qed.

Lemma filter_small (l : list (list (list float))) :
  Forall (fun frame => length frame < 468) l ->
  filter (fun frame => 468 <= length frame) l = [].
Proof.
  induction 1 as [|frame l Hframe _ IH]; [reflexivity|].
  rewrite filter_cons. case_decide; [lia | exact IH].
Qed.

Lemma filter_full (l : list (list (list float))) :
  Forall (fun frame => 468 <= length frame) l ->
  filter (fun frame => 468 <= length frame) l = l.
Proof.
  induction 1 as [|frame l Hframe _ IH]; [reflexivity|].
  rewrite filter_cons. case_decide; [now rewrite IH | lia].
Qed.

(** The frame loop on a request is the loop on its first [max_frames]
    frames, continued on the others. *)
Lemma loop_on_cut (landmarks : list (list (list float))) :
  for_each process_frame [] landmarks =
    (let* rows := for_each process_frame [] (take max_frames landmarks) in
     for_each process_frame rows (drop max_frames landmarks)).
Proof. rewrite <- for_each_app, take_drop. reflexivity. Qed.

Lemma pad_or_truncate_app (rows new : list array1) :
  length rows = max_frames -> pad_or_truncate (rows ++ new) = rows.
Proof.
  intros Hlen. destruct new as [|v new].
  - rewrite app_nil_r. apply pad_or_truncate_full, Hlen.
  - unfold pad_or_truncate.
    destruct (Nat.ltb_spec max_frames (length (rows ++ v :: new))) as [_|Hle].
    + rewrite <- Hlen. apply take_app_length.
    + rewrite length_app in Hle. cbn [length] in Hle. lia.
Qed.

(** The vectors the loop has built from the first [max_frames] frames of
    a request open the list it builds from the whole request. *)
Lemma loop_rows_of_cut landmarks (rows : list array1) :
  for_each process_frame [] landmarks = Ok rows ->
  exists rows1 new,
    for_each process_frame [] (take max_frames landmarks) = Ok rows1 /\
    rows = rows1 ++ new /\
    length rows1
      = length (filter (fun frame => 468 <= length frame) (take max_frames landmarks)) /\
    length new
      = length (filter (fun frame => 468 <= length frame) (drop max_frames landmarks)).
Proof.
  intros Hrun. rewrite loop_on_cut in Hrun.
  destruct (for_each process_frame [] (take max_frames landmarks)) as [rows1|e] eqn:Hcut;
    cbn [bind] in Hrun; [|discriminate].
  destruct (for_each_extends _ _ _ Hcut) as (new1 & -> & Hlen1).
  destruct (for_each_extends _ _ _ Hrun) as (new & -> & Hlen).
  exists new1, new. repeat split; assumption.
Qed.

Lemma preprocess_on_cut landmarks :
  max_frames < length landmarks ->
  cap_on_input landmarks ->
  preprocess_landmarks landmarks = preprocess_landmarks (take max_frames landmarks).
Proof.
  intros Hlong [Hsmall | [[Hfull Hquiet] | [e Hraise]]].
  - rewrite (preprocess_full_meshes landmarks),
      (preprocess_full_meshes (take max_frames landmarks)).
    rewrite <- (take_drop max_frames landmarks) at 1.
    rewrite filter_app, (filter_small _ Hsmall), app_nil_r. reflexivity.
  - destruct (for_each process_frame [] (take max_frames landmarks)) as [rows1|e] eqn:Hcut.
    + destruct (Hquiet rows1 Hcut) as [rows Hrows].
      assert (Hrun : for_each process_frame [] landmarks = Ok rows)
        by (rewrite loop_on_cut, Hcut; exact Hrows).
      destruct (loop_rows_of_cut _ _ Hrun) as (rows1' & new & Hcut' & -> & Hlen1 & _).
      rewrite Hcut in Hcut'. inversion Hcut'; subst rows1'.
      rewrite (filter_full _ Hfull), length_take_le in Hlen1 by lia.
      assert (Hne : rows1 <> []) by (intros ->; discriminate).
      rewrite (preprocess_of_rows _ _ Hrun), (preprocess_of_rows _ _ Hcut).
      * rewrite (pad_or_truncate_app _ _ Hlen1), (pad_or_truncate_full _ Hlen1).
        reflexivity.
      * exact Hne.
      * destruct rows1; [congruence | discriminate].
    + unfold preprocess_landmarks. rewrite loop_on_cut, Hcut. reflexivity.
  - unfold preprocess_landmarks. rewrite loop_on_cut, Hraise. reflexivity.
Qed.

(** With points of one common number of coordinates after fifty full
    meshes, no later frame raises: either the third frame has raised, or
    every feature vector is empty. *)
Lemma common_dimension_quiet landmarks d :
  max_frames < length landmarks ->
  Forall (full_mesh d) (take max_frames landmarks) ->
  Forall (Forall (fun p => length p = d)) (drop max_frames landmarks) ->
  quiet_after_cap landmarks.
Proof.
  intros Hlong Hmesh Hdim rows Hcut. destruct d as [|d].
  - pose proof (empty_points_loop _ [] Hmesh (Forall_nil_2 _)) as Hloop.
    assert (E : Ok rows = Ok ([] ++ replicate (length (take max_frames landmarks)) []))
      by (rewrite <- Hcut; exact Hloop).
    inversion E; subst rows. cbn [app].
    rewrite for_each_full_meshes, empty_points_loop.
    + eexists. reflexivity.
    + rewrite Forall_forall in Hdim |- *. intros frame Hin.
      apply list_elem_of_filter in Hin as [Hfull Hin]. split; [exact Hfull|].
      apply Hdim, Hin.
    + apply Forall_replicate. reflexivity.
  - destruct landmarks as [|f1 [|f2 [|f3 rest]]];
      try (unfold max_frames in Hlong; cbn in Hlong; lia).
    change (take max_frames (f1 :: f2 :: f3 :: rest))
      with (f1 :: f2 :: f3 :: take 47 rest) in Hmesh, Hcut.
    inversion Hmesh as [|? ? H1 Hm1]; subst.
    inversion Hm1 as [|? ? H2 Hm2]; subst.
    inversion Hm2 as [|? ? H3 _]; subst.
    rewrite (third_full_mesh_raises (S d)) in Hcut by (assumption || lia).
    discriminate.
Qed.

(** C7, as the code has it.  The cap of 50 is applied to the feature
    vectors of the processed frames, those of at least 468 points, and
    not to the frames of the request.  For a request of more than 50
    frames, preprocessing gives the same tensor or raises the same
    exception as on the first 50 frames alone, and the two responses agree
    on text and confidence, whenever no frame after the 50th is a full
    mesh, or the first 50 frames are all full meshes and the loop raises on
    no later frame, or the loop raises within the first 50 frames.  When
    the loop has built more than 50 vectors on such a request, the tensor
    is made of the first 50 of them, and these are the vectors of the
    first 50 frames. *)
Theorem truncation_to_first_frames g clk landmarks :
  max_frames < length landmarks ->
  cap_on_input landmarks ->
  preprocess_landmarks landmarks = preprocess_landmarks (take max_frames landmarks) /\
  text (predict_lip_reading g clk landmarks)
    = text (predict_lip_reading g clk (take max_frames landmarks)) /\
  confidence (predict_lip_reading g clk landmarks)
    = confidence (predict_lip_reading g clk (take max_frames landmarks)) /\
  (forall rows,
     for_each process_frame [] landmarks = Ok rows ->
     max_frames < length rows ->
     pad_or_truncate rows = take max_frames rows /\
     for_each process_frame [] (take max_frames landmarks) = Ok (take max_frames rows)).
Proof.
  intros Hlong Hcap.
  pose proof (preprocess_on_cut landmarks Hlong Hcap) as Hpre.
  split; [exact Hpre|].
  split; [unfold predict_lip_reading, predict_lip_reading_try; rewrite <- Hpre; reflexivity|].
  split; [unfold predict_lip_reading, predict_lip_reading_try; rewrite <- Hpre; reflexivity|].
  intros rows Hrun Hrows. split.
  - unfold pad_or_truncate.
    destruct (Nat.ltb_spec max_frames (length rows)); [reflexivity | lia].
  - destruct (loop_rows_of_cut _ _ Hrun) as (rows1 & new & Hcut & -> & Hlen1 & Hlen).
    destruct Hcap as [Hsmall | [[Hfull _] | [e Hraise]]].
    + rewrite (filter_small _ Hsmall) in Hlen. cbn [length] in Hlen.
      pose proof (length_filter (fun frame => 468 <= length frame)
                    (take max_frames landmarks)) as Hle.
      rewrite length_take_le in Hle by lia.
      rewrite length_app in Hrows. lia.
    + rewrite (filter_full _ Hfull), length_take_le in Hlen1 by lia.
      rewrite Hcut, <- Hlen1, take_app_length. reflexivity.
    + rewrite Hraise in Hcut. discriminate.
Qed.

Lemma truncation_to_first_frames_witness :
  max_frames < length bare_request /\
  cap_on_input bare_request /\
  preprocess_landmarks bare_request = preprocess_landmarks (take max_frames bare_request) /\
  text (predict_lip_reading idle epoch bare_request)
    = text (predict_lip_reading idle epoch (take max_frames bare_request)) /\
  confidence (predict_lip_reading idle epoch bare_request)
    = confidence (predict_lip_reading idle epoch (take max_frames bare_request)) /\
  (forall rows,
     for_each process_frame [] bare_request = Ok rows ->
     max_frames < length rows ->
     pad_or_truncate rows = take max_frames rows /\
     for_each process_frame [] (take max_frames bare_request) = Ok (take max_frames rows)).
Proof.
  assert (Hlong : max_frames < length bare_request)
    by (unfold bare_request, max_frames; rewrite length_replicate; lia).
  assert (Hbare : full_mesh 0 bare_frame).
  { split.
    - unfold bare_frame. rewrite length_replicate. lia.
    - apply Forall_replicate. reflexivity. }
  assert (Hcap : cap_on_input bare_request).
  { right; left. split.
    - apply Forall_take, Forall_replicate. exact (proj1 Hbare).
    - apply (common_dimension_quiet bare_request 0 Hlong).
      + apply Forall_take, Forall_replicate. exact Hbare.
      + apply Forall_drop, Forall_replicate. exact (proj2 Hbare). }
  split; [exact Hlong|]. split; [exact Hcap|].
  apply (truncation_to_first_frames idle epoch bare_request Hlong Hcap).
Defined.

(** On [bare_request] the truncation is reached: the loop builds 51
    vectors, of which the tensor keeps 50. *)
Remark bare_request_rows :
  for_each process_frame [] bare_request = Ok (replicate 51 []) /\
  preprocess_landmarks bare_request = Ok [replicate 50 []].
Proof. split; vm_compute; reflexivity. Qed.

(** C7, as stated, fails.  Of 51 frames the first 50 have no point and the
    last is a full mesh: the whole sequence is answered with a prediction
    at confidence 0.1, its first 50 frames alone with the zero-confidence
    error response. *)
Lemma late_mesh_counterexample :
  max_frames < length late_mesh_request /\
  predict_lip_reading idle epoch late_mesh_request
    = {| text := "Ah"; confidence := literal 1 10; processing_time := zero |} /\
  predict_lip_reading idle epoch (take max_frames late_mesh_request)
    = {| text := "Error processing landmarks: No valid lip landmarks found";
         confidence := zero; processing_time := zero |}.
Proof.
  split; [vm_compute; lia|].
  split; vm_compute; reflexivity.
Qed.

(** Nor does it hold as soon as the first 50 frames are all full meshes.
    After 50 full meshes of points without coordinates, whose feature
    vectors are empty, a full mesh at rest cannot be subtracted from the
    last vector: the whole sequence is answered with the zero-confidence
    error response, its first 50 frames alone with a response at
    confidence 0.1. *)
Remark late_raise_counterexample :
  max_frames < length late_raise_request /\
  Forall (fun frame => 468 <= length frame) (take max_frames late_raise_request) /\
  for_each process_frame [] (take max_frames late_raise_request)
    = Ok (replicate 50 []) /\
  for_each process_frame (replicate 50 []) (drop max_frames late_raise_request)
    = Raise (broadcast_error 81 0) /\
  predict_lip_reading idle epoch late_raise_request
    = {| text := "Error processing landmarks: operands could not be broadcast together with shapes (81,) (0,) ";
         confidence := zero; processing_time := zero |} /\
  predict_lip_reading idle epoch (take max_frames late_raise_request)
    = {| text := "Error in analysis"; confidence := literal 1 10;
         processing_time := zero |}.
Proof.
  split; [vm_compute; lia|].
  split; [apply Forall_take, Forall_app; split; repeat constructor;
          apply Forall_replicate; vm_compute; lia|].
  repeat split; vm_compute; reflexivity.
Qed.

(** A request of the first kind with a prediction: a full mesh at rest,
    then 50 frames without a point. *)
Remark early_mesh_prediction :
  max_frames < length early_mesh_request /\
  cap_on_input early_mesh_request /\
  predict_lip_reading idle epoch early_mesh_request
    = {| text := "Ah"; confidence := literal 1 10; processing_time := zero |} /\
  predict_lip_reading idle epoch (take max_frames early_mesh_request)
    = {| text := "Ah"; confidence := literal 1 10; processing_time := zero |}.
Proof.
  split; [vm_compute; lia|].
  split; [left; repeat constructor|].
  split; vm_compute; reflexivity.
Qed.

(** The 50th frame of the input is the last that counts: with a full mesh
    as 50th frame the first 50 frames answer as the whole request does,
    and the first 49 do not. *)
Remark fiftieth_frame_counts :
  max_frames < length fiftieth_mesh_request /\
  cap_on_input fiftieth_mesh_request /\
  predict_lip_reading idle epoch fiftieth_mesh_request
    = {| text := "Ah"; confidence := literal 1 10; processing_time := zero |} /\
  predict_lip_reading idle epoch (take max_frames fiftieth_mesh_request)
    = {| text := "Ah"; confidence := literal 1 10; processing_time := zero |} /\
  predict_lip_reading idle epoch (take 49 fiftieth_mesh_request)
    = {| text := "Error processing landmarks: No valid lip landmarks found";
         confidence := zero; processing_time := zero |}.
Proof.
  split; [vm_compute; lia|].
  split; [left; repeat constructor|].
  repeat split; vm_compute; reflexivity.
Qed.

(** * Further properties *)

(** ** The fixed sequence length *)

(** After padding or truncation a non-empty processed sequence has exactly
    50 vectors, begins with the first 50 vectors it had, and is left
    unchanged by a second pass. *)
Theorem pad_or_truncate_fixed_length (processed_frames : list array1) :
  processed_frames <> [] ->
  length (pad_or_truncate processed_frames) = max_frames /\
  take (length processed_frames) (pad_or_truncate processed_frames)
    = take max_frames processed_frames /\
  pad_or_truncate (pad_or_truncate processed_frames) = pad_or_truncate processed_frames.
Proof.
  intros Hne. split; [apply pad_or_truncate_length, Hne|]. split.
  - unfold pad_or_truncate.
    destruct (Nat.ltb_spec max_frames (length processed_frames)).
    + apply take_ge. rewrite length_take_le by lia. lia.
    + rewrite pad_while_spec by (assumption || lia).
      rewrite take_app_length. symmetry. apply take_ge. lia.
  - apply pad_or_truncate_full, pad_or_truncate_length, Hne.
Qed.

Lemma pad_or_truncate_fixed_length_witness :
  two_still_rows <> [] /\
  length (pad_or_truncate two_still_rows) = max_frames /\
  take (length two_still_rows) (pad_or_truncate two_still_rows)
    = take max_frames two_still_rows /\
  pad_or_truncate (pad_or_truncate two_still_rows) = pad_or_truncate two_still_rows.
Proof.
  assert (Hne : two_still_rows <> []) by discriminate.
  split; [exact Hne|].
  apply (pad_or_truncate_fixed_length two_still_rows Hne).
Defined.

(** ** The frame loop *)

(** Whenever the frame loop of [preprocess_landmarks] completes, it has
    built exactly one feature vector per full-mesh frame of the request,
    whatever the coordinates are. *)
Theorem one_vector_per_full_mesh landmarks (processed_frames : list array1) :
  for_each process_frame [] landmarks = Ok processed_frames ->
  length processed_frames
    = length (filter (fun frame => 468 <= length frame) landmarks).
Proof.
  intros Hrun. destruct (for_each_extends _ _ _ Hrun) as (new & -> & Hlen). exact Hlen.
Qed.

Lemma one_vector_per_full_mesh_witness :
  for_each process_frame [] [[]; still_frame; [still_point]; still_frame]
    = Ok two_still_rows /\
  length two_still_rows
    = length (filter (fun frame => 468 <= length frame)
                     [[]; still_frame; [still_point]; still_frame]).
Proof.
  assert (Hrun : for_each process_frame [] [[]; still_frame; [still_point]; still_frame]
                 = Ok two_still_rows) by (vm_compute; reflexivity).
  split; [exact Hrun|].
  apply (one_vector_per_full_mesh _ _ Hrun).
Defined.

(** Frames below the full-mesh count have no influence, wherever they
    stand in the request: preprocessing and the response are those of the
    subsequence of full-mesh frames. *)
Theorem small_frames_ignored g clk landmarks :
  preprocess_landmarks landmarks
    = preprocess_landmarks (filter (fun frame => 468 <= length frame) landmarks) /\
  predict_lip_reading g clk landmarks
    = predict_lip_reading g clk (filter (fun frame => 468 <= length frame) landmarks).
Proof.
  split; [apply preprocess_full_meshes|].
  unfold predict_lip_reading, predict_lip_reading_try.
  rewrite <- preprocess_full_meshes. reflexivity.
Qed.

(** ** The tensor of a successful request *)

Lemma torch_tensor_value (rows : list array1) t :
  torch_tensor rows = Ok t -> t = map (map (astype float32)) rows.
Proof.
  unfold torch_tensor.
  match goal with
  | |- context [list_find ?P rows] => destruct (list_find P rows) as [[i r]|]
  end; [discriminate|].
  intros H; inversion H; reflexivity.
Qed.

Lemma torch_tensor_uniform (rows : list array1) :
  Forall (fun r => length r = length (hd [] rows)) rows ->
  torch_tensor rows = Ok (map (map (astype float32)) rows).
Proof.
  intros Hrows. unfold torch_tensor.
  match goal with
  | |- context [list_find ?P rows] => destruct (list_find P rows) as [[i r]|] eqn:Hfind
  end; [|reflexivity].
  apply list_find_Some in Hfind as (Hi & Hr & _).
  apply list_elem_of_lookup_2 in Hi. rewrite Forall_forall in Hrows.
  specialize (Hrows r Hi). contradiction.
Qed.

Lemma preprocess_landmarks_Ok landmarks t :
  preprocess_landmarks landmarks = Ok t ->
  exists rows,
    for_each process_frame [] landmarks = Ok rows /\ rows <> [] /\
    torch_tensor (pad_or_truncate rows) = Ok (map (map (astype float32)) (pad_or_truncate rows)) /\
    t = [map (map (astype float32)) (pad_or_truncate rows)].
Proof.
  unfold preprocess_landmarks.
  destruct (for_each process_frame [] landmarks) as [rows|e]; cbn [bind]; [|discriminate].
  destruct rows as [|a rows]; [discriminate|].
  destruct (torch_tensor (pad_or_truncate (a :: rows))) as [t2|e] eqn:Ht; cbn [bind];
    [|discriminate].
  intros H; inversion H; subst.
  pose proof (torch_tensor_value _ _ Ht) as ->.
  exists (a :: rows). repeat split; try assumption. discriminate.
Qed.

Lemma tensor_rows landmarks t :
  preprocess_landmarks landmarks = Ok t -> exists t2, t = [t2] /\ length t2 = 50.
Proof.
  intros Hpre.
  destruct (preprocess_landmarks_Ok _ _ Hpre) as (rows & _ & Hne & _ & ->).
  eexists. split; [reflexivity|].
  rewrite length_map. apply (pad_or_truncate_length rows Hne).
Qed.

(** Every tensor that [preprocess_landmarks] returns has shape (1, 50, W):
    one batch of exactly 50 rows of one common width. *)
Theorem tensor_shape landmarks t :
  preprocess_landmarks landmarks = Ok t ->
  exists t2 width,
    t = [t2] /\ length t2 = 50 /\ Forall (fun row => length row = width) t2.
Proof.
  intros Hpre.
  destruct (preprocess_landmarks_Ok _ _ Hpre) as (rows & _ & Hne & Ht & ->).
  eexists _, (length (hd [] (pad_or_truncate rows))). split; [reflexivity|]. split.
  - rewrite length_map. apply (pad_or_truncate_length rows Hne).
  - apply torch_tensor_Ok in Ht. apply Forall_map.
    eapply Forall_impl; [exact Ht|]. intros r Hr. cbn. now rewrite length_map.
Qed.

Lemma tensor_shape_witness :
  preprocess_landmarks [still_frame] = Ok still_tensor /\
  exists t2 width,
    still_tensor = [t2] /\ length t2 = 50 /\ Forall (fun row => length row = width) t2.
Proof.
  assert (Hpre : preprocess_landmarks [still_frame] = Ok still_tensor)
    by (vm_compute; reflexivity).
  split; [exact Hpre|].
  apply (tensor_shape [still_frame] still_tensor Hpre).
Defined.

(** ** Requests with exactly one full-mesh frame *)

Lemma map_replicate {A B} (f : A -> B) n x : map f (replicate n x) = replicate n (f x).
Proof. induction n as [|n IH]; [reflexivity|]. cbn. now rewrite IH. Qed.

Lemma two_full_meshes_raise landmarks :
  Forall (Forall (fun p : list float => p <> [])) landmarks ->
  2 <= length (filter (fun frame => 468 <= length frame) landmarks) ->
  exists e, preprocess_landmarks landmarks = Raise e.
Proof.
  intros Hpts Hcount. unfold preprocess_landmarks.
  destruct (for_each process_frame [] landmarks) as [rows|e] eqn:Hrun; cbn [bind];
    [|eauto].
  destruct (for_each_loop_state _ _ _ Hpts (or_introl eq_refl) Hrun) as [Hstate Hlen].
  cbn [length] in Hlen.
  destruct Hstate as [->|[(a & -> & _)|Hragged]]; [cbn in Hlen; lia | cbn in Hlen; lia|].
  destruct (pad_or_truncate_ragged _ Hragged) as (a & b & rest & Hpad & Hab).
  destruct (torch_tensor_ragged a b rest Hab) as [e He].
  destruct Hragged as (a' & b' & rest' & -> & _).
  rewrite Hpad, He. eauto.
Qed.

Lemma single_full_mesh_tensor (frame : list (list float)) d :
  full_mesh d frame ->
  preprocess_landmarks [frame] =
    Ok [map (astype float32) (normalize (lip_landmarks_of frame))
        :: replicate 49 (replicate (27 * d) zero)].
Proof.
  intros Hmesh. pose proof Hmesh as [Hfull Hdim].
  destruct (lip_landmarks_of_full frame Hfull) as [Hlen Hin].
  assert (Hrect : Forall (fun p => length p = d) (lip_landmarks_of frame)).
  { rewrite Forall_forall in Hin, Hdim |- *. intros p Hp. apply Hdim, Hin, Hp. }
  assert (Hne : lip_landmarks_of frame <> [])
    by (intros E; apply (f_equal length) in E; rewrite Hlen in E; cbn in E; lia).
  assert (Hflat : length (normalize (lip_landmarks_of frame)) = 27 * d)
    by (rewrite (normalize_length _ _ Hne Hrect), Hlen; reflexivity).
  set (flat := normalize (lip_landmarks_of frame)) in *.
  assert (Hrun : for_each process_frame [] [frame] = Ok [flat]).
  { cbn [for_each]. rewrite process_frame_full by assumption.
    rewrite (np_array2_rect _ _ Hrect). reflexivity. }
  rewrite (preprocess_of_rows [frame] [flat] Hrun) by discriminate.
  assert (Hpad : pad_or_truncate [flat] = flat :: replicate 49 (replicate (27 * d) zero)).
  { unfold pad_or_truncate. change (max_frames <? length [flat]) with false.
    rewrite pad_while_spec; [|discriminate|cbn [length]; unfold max_frames; lia].
    unfold np_zeros_like. cbn [hd]. rewrite Hflat. reflexivity. }
  rewrite Hpad, torch_tensor_uniform.
  - cbn [bind map]. rewrite map_replicate, map_replicate. reflexivity.
  - cbn [hd]. constructor; [reflexivity|].
    apply Forall_replicate. rewrite length_replicate. symmetry. exact Hflat.
Qed.

(** For requests whose points all have [d >= 1] coordinates, preprocessing
    succeeds exactly when one frame, and no more, is a full mesh; the
    tensor is then the normalized lip array of that frame, rounded to
    float32, followed by 49 zero rows of [27 * d] entries. *)
Theorem success_needs_one_full_mesh landmarks d :
  1 <= d ->
  Forall (Forall (fun p : list float => length p = d)) landmarks ->
  ((exists t, preprocess_landmarks landmarks = Ok t) <->
   length (filter (fun frame => 468 <= length frame) landmarks) = 1) /\
  forall frame,
    filter (fun frame => 468 <= length frame) landmarks = [frame] ->
    preprocess_landmarks landmarks =
      Ok [map (astype float32) (normalize (lip_landmarks_of frame))
          :: replicate 49 (replicate (27 * d) zero)].
Proof.
  intros Hd Hdim.
  assert (Hone : forall frame,
            filter (fun frame => 468 <= length frame) landmarks = [frame] ->
            preprocess_landmarks landmarks =
              Ok [map (astype float32) (normalize (lip_landmarks_of frame))
                  :: replicate 49 (replicate (27 * d) zero)]).
  { intros frame Hfilter. rewrite preprocess_full_meshes, Hfilter.
    apply single_full_mesh_tensor.
    assert (Hin : frame ∈ filter (fun frame => 468 <= length frame) landmarks)
      by (rewrite Hfilter; left).
    apply list_elem_of_filter in Hin as [Hfull Hin].
    split; [exact Hfull|]. rewrite Forall_forall in Hdim. apply Hdim, Hin. }
  split; [|exact Hone]. split.
  - intros [t Ht].
    destruct (filter (fun frame => 468 <= length frame) landmarks)
      as [|f1 [|f2 rest]] eqn:Hfilter; [| reflexivity |].
    + rewrite preprocess_full_meshes, Hfilter in Ht. discriminate.
    + destruct (two_full_meshes_raise landmarks) as [e He].
      * eapply Forall_impl; [exact Hdim|]. intros frame Hframe.
        eapply Forall_impl; [exact Hframe|]. intros p Hp. cbn in Hp.
        intros ->. cbn in Hp. lia.
      * rewrite Hfilter. cbn. lia.
      * rewrite He in Ht. discriminate.
  - intros Hcount.
    destruct (filter (fun frame => 468 <= length frame) landmarks)
      as [|f1 [|f2 rest]] eqn:Hfilter; try discriminate.
    eexists. apply Hone. reflexivity.
Qed.

Lemma success_needs_one_full_mesh_witness :
  1 <= 3 /\
  Forall (Forall (fun p : list float => length p = 3)) [[still_point]; still_frame] /\
  ((exists t, preprocess_landmarks [[still_point]; still_frame] = Ok t) <->
   length (filter (fun frame => 468 <= length frame) [[still_point]; still_frame]) = 1) /\
  forall frame,
    filter (fun frame => 468 <= length frame) [[still_point]; still_frame] = [frame] ->
    preprocess_landmarks [[still_point]; still_frame] =
      Ok [map (astype float32) (normalize (lip_landmarks_of frame))
          :: replicate 49 (replicate (27 * 3) zero)].
Proof.
  assert (Hd : 1 <= 3) by lia.
  assert (Hdim : Forall (Forall (fun p : list float => length p = 3))
                        [[still_point]; still_frame]).
  { constructor; [repeat constructor|].
    constructor; [|constructor]. apply Forall_replicate. reflexivity. }
  split; [exact Hd|]. split; [exact Hdim|].
  apply (success_needs_one_full_mesh [[still_point]; still_frame] 3 Hd Hdim).
Defined.

(** ** Classification and text on the tensors of the service *)

Lemma index_axis2_batch (t2 : array2) k coords :
  index_axis2 [t2] k = Ok coords ->
  coords = [map (fun v : array1 => default nan (v !! k)) t2].
Proof.
  unfold index_axis2. destruct (k <? shape2 [t2]); [|discriminate].
  intros H; inversion H; reflexivity.
Qed.

Lemma measure_ranges_batch (t2 : array2) kx ky x_coords y_coords :
  t2 <> [] ->
  index_axis2 [t2] kx = Ok x_coords ->
  index_axis2 [t2] ky = Ok y_coords ->
  exists r, measure_ranges [t2] x_coords y_coords = Ok r /\ movement_patterns r = [].
Proof.
  intros Hne Hx Hy.
  apply index_axis2_batch in Hx as ->. apply index_axis2_batch in Hy as ->.
  destruct t2 as [|v t2]; [congruence|].
  unfold measure_ranges. cbn [map concat app np_max np_min bind].
  eexists. split; reflexivity.
Qed.

Lemma movement_rules_silent r :
  movement_patterns r = [] ->
  fricative_rule r = [] /\ stop_rule r = [] /\ movement_rule r = [].
Proof.
  intros Hmp. unfold fricative_rule, stop_rule, movement_rule. rewrite Hmp.
  repeat split; reflexivity.
Qed.

Lemma detect_phonemes_batch (t2 : array2) kx ky x_coords y_coords :
  t2 <> [] ->
  index_axis2 [t2] kx = Ok x_coords ->
  index_axis2 [t2] ky = Ok y_coords ->
  exists r,
    measure_ranges [t2] x_coords y_coords = Ok r /\
    detect_phonemes [t2] x_coords y_coords = infer_default r (vowel_rule r ++ labial_rule r).
Proof.
  intros Hne Hx Hy.
  destruct (measure_ranges_batch _ _ _ _ _ Hne Hx Hy) as (r & Hr & Hmp).
  exists r. split; [exact Hr|].
  unfold detect_phonemes. rewrite Hr. cbn [bind try_except].
  unfold threshold_rules.
  destruct (movement_rules_silent r Hmp) as (-> & -> & ->).
  now rewrite !app_nil_r.
Qed.

(** The category lists that the two range checks and the default can
    produce. *)
Lemma range_categories r :
  infer_default r (vowel_rule r ++ labial_rule r) ∈
    [["A"]; ["O"]; ["E"]; ["I"]; ["U"];
     ["A"; "M"; "B"; "P"]; ["O"; "M"; "B"; "P"]; ["E"; "M"; "B"; "P"];
     ["I"; "M"; "B"; "P"]; ["U"; "M"; "B"; "P"]; ["M"; "B"; "P"]; ["H"]; ["M"]].
Proof.
  unfold vowel_rule, labial_rule, infer_default.
  repeat (match goal with
          | |- context [if ?b then _ else _] =>
              match type of b with bool => destruct b end
          end; cbn [app]);
    compute_done.
Qed.

Lemma range_categories_facts (phonemes : list string) :
  phonemes ∈
    [["A"]; ["O"]; ["E"]; ["I"]; ["U"];
     ["A"; "M"; "B"; "P"]; ["O"; "M"; "B"; "P"]; ["E"; "M"; "B"; "P"];
     ["I"; "M"; "B"; "P"]; ["U"; "M"; "B"; "P"]; ["M"; "B"; "P"]; ["H"]; ["M"]] ->
  Forall (fun p => p ∉ ["F"; "V"; "T"; "D"; "L"]) phonemes /\
  ("H" ∈ phonemes -> phonemes = ["H"]).
Proof.
  intros Hin.
  repeat (apply elem_of_cons in Hin as [->|Hin]); [..|apply elem_of_nil in Hin; destruct Hin];
    (split; [compute_done | intros HH; try reflexivity; exfalso; revert HH; compute_done]).
Qed.

(** On every tensor that preprocessing returns, the classifier finds its
    ranges and only its two range checks can fire: the categories F, V, T,
    D and L, which depend on movement between frames, never occur, and H
    occurs only alone. *)
Theorem movement_categories_never_fire landmarks t x_coords y_coords :
  preprocess_landmarks landmarks = Ok t ->
  index_axis2 t 0 = Ok x_coords ->
  index_axis2 t 1 = Ok y_coords ->
  exists r,
    measure_ranges t x_coords y_coords = Ok r /\
    detect_phonemes t x_coords y_coords = infer_default r (vowel_rule r ++ labial_rule r) /\
    Forall (fun p => p ∉ ["F"; "V"; "T"; "D"; "L"]) (detect_phonemes t x_coords y_coords) /\
    ("H" ∈ detect_phonemes t x_coords y_coords ->
     detect_phonemes t x_coords y_coords = ["H"]).
Proof.
  intros Hpre Hx Hy.
  destruct (tensor_rows _ _ Hpre) as (t2 & -> & Hlen).
  assert (Hne : t2 <> []) by (intros ->; discriminate).
  destruct (detect_phonemes_batch _ _ _ _ _ Hne Hx Hy) as (r & Hr & Hdet).
  exists r. split; [exact Hr|]. split; [exact Hdet|].
  pose proof (range_categories r) as Hin. rewrite <- Hdet in Hin.
  exact (range_categories_facts _ Hin).
Qed.

Lemma movement_categories_never_fire_witness :
  preprocess_landmarks [still_frame] = Ok still_tensor /\
  index_axis2 still_tensor 0 = Ok [replicate 50 zero] /\
  index_axis2 still_tensor 1 = Ok [replicate 50 zero] /\
  exists r,
    measure_ranges still_tensor [replicate 50 zero] [replicate 50 zero] = Ok r /\
    detect_phonemes still_tensor [replicate 50 zero] [replicate 50 zero]
      = infer_default r (vowel_rule r ++ labial_rule r) /\
    Forall (fun p => p ∉ ["F"; "V"; "T"; "D"; "L"])
           (detect_phonemes still_tensor [replicate 50 zero] [replicate 50 zero]) /\
    ("H" ∈ detect_phonemes still_tensor [replicate 50 zero] [replicate 50 zero] ->
     detect_phonemes still_tensor [replicate 50 zero] [replicate 50 zero] = ["H"]).
Proof.
  assert (Hpre : preprocess_landmarks [still_frame] = Ok still_tensor)
    by (vm_compute; reflexivity).
  assert (Hx : index_axis2 still_tensor 0 = Ok [replicate 50 zero])
    by (vm_compute; reflexivity).
  assert (Hy : index_axis2 still_tensor 1 = Ok [replicate 50 zero])
    by (vm_compute; reflexivity).
  split; [exact Hpre|]. split; [exact Hx|]. split; [exact Hy|].
  apply (movement_categories_never_fire [still_frame] still_tensor
           [replicate 50 zero] [replicate 50 zero] Hpre Hx Hy).
Defined.

Lemma analyze_lip_patterns_batch (t2 : array2) :
  length t2 = 50 ->
  analyze_lip_patterns [t2] ∈
    [Some "Ah"; Some "Eh"; Some "Ee"; Some "Oh"; Some "Oo"; Some "Good";
     Some "Error in analysis"; None].
Proof.
  intros Hlen.
  assert (Hne : t2 <> []) by (intros ->; discriminate).
  unfold analyze_lip_patterns.
  replace (0 <? shape1 [t2]) with true
    by (unfold shape1; cbn [hd]; rewrite Hlen; reflexivity).
  destruct (index_axis2 [t2] 0) as [x_coords|e] eqn:Hx; cbn [bind try_except];
    [|compute_done].
  destruct (index_axis2 [t2] 1) as [y_coords|e] eqn:Hy; cbn [bind try_except];
    [|compute_done].
  assert (Hz : exists z, (if 3 <=? shape2 [t2] then index_axis2 [t2] 2 else Ok []) = z)
    by eauto.
  destruct Hz as [[z|e] ->]; cbn [bind try_except]; [|compute_done].
  destruct (detect_phonemes_batch _ _ _ _ _ Hne Hx Hy) as (r & _ & ->).
  rewrite movement_intensity_batch.
  pose proof (range_categories r) as Hin.
  set (phonemes := infer_default r (vowel_rule r ++ labial_rule r)) in *.
  clearbody phonemes.
  repeat (apply elem_of_cons in Hin as [->|Hin]); [..|apply elem_of_nil in Hin; destruct Hin];
    compute_done.
Qed.

(** Every completed response of /predict in app.py carries one of seven
    texts; the phrases "Hello", "Hello world", "Hi", "Thank you", "Yes" and
    the like, which need movement between frames or categories the
    classifier cannot produce here, are never returned. *)
Theorem predicted_text_range g clk landmarks r :
  predict_lip_reading_try g clk landmarks = Ok r ->
  text r ∈ ["Ah"; "Eh"; "Ee"; "Oh"; "Oo"; "Good"; "Error in analysis"].
Proof.
  unfold predict_lip_reading_try, predict_text. rewrite model_absent.
  destruct (preprocess_landmarks landmarks) as [t|e] eqn:Hpre; cbn [bind]; [|discriminate].
  destruct (tensor_rows _ _ Hpre) as (t2 & -> & Hlen).
  match goal with
  | |- context [new_response ?a _ _] =>
      assert (Hin : a ∈ [Some "Ah"; Some "Eh"; Some "Ee"; Some "Oh"; Some "Oo";
                         Some "Good"; Some "Error in analysis"; None])
        by (apply analyze_lip_patterns_batch, Hlen);
      destruct a as [s|]
  end; cbn [new_response]; [|discriminate].
  intros H; inversion H; subst r; cbn [text].
  repeat (apply elem_of_cons in Hin as [Heq|Hin]);
    [..|apply elem_of_nil in Hin; destruct Hin]; try discriminate; inversion Heq; subst; compute_done.
Qed.

Lemma predicted_text_range_witness :
  predict_lip_reading_try idle epoch [still_frame]
    = Ok {| text := "Ah"; confidence := literal 1 10; processing_time := zero |} /\
  "Ah" ∈ ["Ah"; "Eh"; "Ee"; "Oh"; "Oo"; "Good"; "Error in analysis"].
Proof.
  assert (Hok : predict_lip_reading_try idle epoch [still_frame]
                = Ok {| text := "Ah"; confidence := literal 1 10; processing_time := zero |})
    by (vm_compute; reflexivity).
  split; [exact Hok|].
  apply (predicted_text_range idle epoch [still_frame] _ Hok).
Defined.

(** ** Lists of a single category *)

Lemma has_singleton q p : has q [p] = bool_decide (q = p).
Proof. unfold has. apply bool_decide_ext, list_elem_of_singleton. Qed.

(** For a list of one category, [phonemes_to_text] returns the sound of a
    vowel category and returns nothing (Python's [None]) for any other
    category: control reaches the end of the function without a
    [return]. *)
Theorem single_category_text p movement_intensity lip_opening_variance :
  phonemes_to_text [p] movement_intensity lip_opening_variance =
    if decide (p = "A") then Some "Ah"
    else if decide (p = "E") then Some "Eh"
    else if decide (p = "I") then Some "Ee"
    else if decide (p = "O") then Some "Oh"
    else if decide (p = "U") then Some "Oo"
    else None.
Proof.
  unfold phonemes_to_text. rewrite !has_singleton.
  destruct (decide (p = "A")) as [->|HA]; [reflexivity|].
  destruct (decide (p = "E")) as [->|HE]; [reflexivity|].
  destruct (decide (p = "I")) as [->|HI]; [reflexivity|].
  destruct (decide (p = "O")) as [->|HO]; [reflexivity|].
  destruct (decide (p = "U")) as [->|HU]; [reflexivity|].
  rewrite (bool_decide_eq_false_2 ("A" = p)) by congruence.
  rewrite (bool_decide_eq_false_2 ("E" = p)) by congruence.
  rewrite (bool_decide_eq_false_2 ("I" = p)) by congruence.
  rewrite (bool_decide_eq_false_2 ("O" = p)) by congruence.
  rewrite (bool_decide_eq_false_2 ("U" = p)) by congruence.
  cbn [andb length Nat.eqb].
  repeat match goal with
         | |- context [bool_decide (?q = p)] =>
             destruct (bool_decide_reflect (q = p)) as [<-|?]; cbn [andb orb]
         end;
    reflexivity.
Qed.

(** ** Analyses that produce no text *)

(** When preprocessing succeeds but the analysis returns no text, the
    confidence of 0.1 that [calculate_confidence] computes is discarded:
    building the response raises, and the handler answers with the
    zero-confidence error response. *)
Theorem textless_analysis_is_error g clk landmarks t :
  preprocess_landmarks landmarks = Ok t ->
  analyze_lip_patterns t = None ->
  calculate_confidence t = literal 1 10 /\
  exists e,
    predict_lip_reading_try g clk landmarks = Raise e /\
    predict_lip_reading g clk landmarks =
      {| text := "Error processing landmarks: " +:+ str e;
         confidence := zero;
         processing_time := sub float64 (end_time clk) (start_time clk) |}.
Proof.
  intros Hpre Hnone.
  destruct (tensor_rows _ _ Hpre) as (t2 & -> & _).
  split; [apply calculate_confidence_batch|].
  unfold predict_lip_reading, predict_lip_reading_try, predict_text.
  rewrite model_absent, Hpre. cbn [bind]. rewrite Hnone. cbn [new_response try_except].
  eexists. split; reflexivity.
Qed.

Lemma textless_analysis_is_error_witness :
  exists t,
    preprocess_landmarks [quiet_frame] = Ok t /\
    analyze_lip_patterns t = None /\
    calculate_confidence t = literal 1 10 /\
    exists e,
      predict_lip_reading_try idle epoch [quiet_frame] = Raise e /\
      predict_lip_reading idle epoch [quiet_frame] =
        {| text := "Error processing landmarks: " +:+ str e;
           confidence := zero;
           processing_time := sub float64 (end_time epoch) (start_time epoch) |}.
Proof.
  destruct (preprocess_landmarks [quiet_frame]) as [t|e] eqn:Hpre;
    [|vm_compute in Hpre; discriminate].
  assert (Hnone : analyze_lip_patterns t = None).
  { vm_compute in Hpre. inversion Hpre. vm_compute. reflexivity. }
  exists t. split; [reflexivity|]. split; [exact Hnone|].
  apply (textless_analysis_is_error idle epoch [quiet_frame] t Hpre Hnone).
Defined.

(** ** app_lightweight.py *)

(** Whatever the request, [analyze_lip_movement] answers with one of six
    fixed phrases. *)
Theorem lightweight_phrases landmarks :
  Lightweight.analyze_lip_movement landmarks ∈
    ["No movement detected"; "Hello world, this is a test."; "Hello world";
     "Hello"; "Hi"; "No speech detected"].
Proof.
  unfold Lightweight.analyze_lip_movement.
  destruct landmarks as [|frame landmarks]; [compute_done|].
  destruct (np_array3 (frame :: landmarks)) as [arr|e]; cbn [bind try_except];
    [|compute_done].
  match goal with
  | |- context [if ?b then _ else _] => destruct b
  end; cbn [try_except].
  - unfold Lightweight.analyze_fallback_patterns.
    repeat match goal with
           | |- context [if ?b then _ else _] =>
               match type of b with bool => destruct b end
           end; compute_done.
  - match goal with
    | |- context [Lightweight.calculate_movement_metrics ?a] =>
        destruct (Lightweight.calculate_movement_metrics a) as [m|e]
    end; cbn [bind try_except]; [|compute_done].
    unfold Lightweight.recognize_speech_pattern.
    repeat match goal with
           | |- context [if ?b then _ else _] =>
               match type of b with bool => destruct b end
           end; compute_done.
Qed.

Lemma recognize_without_movement m :
  Lightweight.movement_intensity m = zero ->
  Lightweight.recognize_speech_pattern m ∈ ["Hi"; "No speech detected"].
Proof.
  intros Hmi. unfold Lightweight.recognize_speech_pattern. rewrite Hmi.
  replace (gt zero (literal 5 1000)) with false by (vm_compute; reflexivity).
  replace (gt zero (literal 2 1000)) with false by (vm_compute; reflexivity).
  replace (gt zero (literal 5 10000)) with false by (vm_compute; reflexivity).
  cbn [andb].
  match goal with
  | |- context [if ?b then _ else _] => destruct b
  end; compute_done.
Qed.

Lemma lookup_filtered {A} (frame : list A) (indices : list nat) :
  length (omap (fun i => frame !! i) (filter (fun i => i < length frame) indices))
    = length (filter (fun i => i < length frame) indices).
Proof.
  induction indices as [|i indices IH]; [reflexivity|].
  rewrite filter_cons. case_decide as Hi; [|exact IH].
  destruct (lookup_lt_is_Some_2 frame i Hi) as [p Hp].
  match goal with
  | |- context [omap ?f (i :: ?l)] =>
      change (omap f (i :: l)) with
        (match frame !! i with Some y => y :: omap f l | None => omap f l end)
  end.
  rewrite Hp. cbn [length]. now rewrite IH.
Qed.

(** The metrics of a single frame: nothing raises and the movement
    intensity is the guarded 0. *)
Lemma single_frame_metrics (points : array2) :
  points <> [] ->
  exists m, Lightweight.calculate_movement_metrics [points] = Ok m /\
            Lightweight.movement_intensity m = zero.
Proof.
  intros Hne. destruct points as [|p ps]; [congruence|].
  unfold Lightweight.calculate_movement_metrics, index_axis2.
  cbn [length Nat.ltb Nat.leb bind].
  match goal with
  | |- context [shape2 ?a] => generalize (shape2 a)
  end.
  intros [|[|n]];
    cbn [bind map concat app np_max np_min];
    eexists; split; reflexivity.
Qed.

(** A request of a single frame with more than 13 points, all of one
    dimension, is never recognised as speech by the lightweight service:
    without a second frame the movement intensity is 0 and the answer is
    "Hi" or "No speech detected". *)
Theorem single_frame_is_not_speech (frame : list (list float)) d :
  13 < length frame ->
  Forall (fun p => length p = d) frame ->
  Lightweight.analyze_lip_movement [frame] ∈ ["Hi"; "No speech detected"].
Proof.
  intros Hlen Hdim. unfold Lightweight.analyze_lip_movement.
  assert (Harr : np_array3 [frame] = Ok [frame]).
  { unfold np_array3, rectangular. cbn [hd forallb].
    rewrite Nat.eqb_refl. cbn [andb].
    replace (forallb _ frame) with true; [reflexivity|].
    symmetry. apply forallb_forall. intros p Hp. apply Nat.eqb_eq.
    rewrite Forall_forall in Hdim.
    destruct frame as [|p0 frame']; [destruct Hp|]. cbn [hd].
    rewrite (Hdim p), (Hdim p0); [reflexivity | left | now apply list_elem_of_In]. }
  rewrite Harr. cbn [bind].
  change (shape1 [frame]) with (length frame).
  destruct (Nat.eqb_spec
    (length (filter (fun i => i < length frame) Lightweight.lip_landmarks_indices)) 0)
    as [Hz|Hnz].
  - exfalso. revert Hz. apply lightweight_filter_nonempty, Hlen.
  - unfold Lightweight.take_points. cbn [map].
    match goal with
    | |- context [Lightweight.calculate_movement_metrics [?points]] =>
        destruct (single_frame_metrics points) as (m & Hm & Hmi);
        [|destruct (Lightweight.calculate_movement_metrics [points]) as [m'|e] eqn:Hm']
    end.
    + intros E. apply (f_equal length) in E. rewrite lookup_filtered in E.
      exact (Hnz E).
    + assert (Heq : Ok m' = Ok m) by (rewrite <- Hm'; exact Hm).
      inversion Heq; subst m'.
      cbn [bind try_except]. apply recognize_without_movement, Hmi.
    + assert (Heq : @Raise Lightweight.metrics e = Ok m) by (rewrite <- Hm'; exact Hm).
      discriminate.
Qed.

Lemma single_frame_is_not_speech_witness :
  13 < length (replicate 100 still_point) /\
  Forall (fun p => length p = 3) (replicate 100 still_point) /\
  Lightweight.analyze_lip_movement [replicate 100 still_point]
    ∈ ["Hi"; "No speech detected"].
Proof.
  assert (Hlen : 13 < length (replicate 100 still_point))
    by (rewrite length_replicate; lia).
  assert (Hdim : Forall (fun p : list float => length p = 3) (replicate 100 still_point))
    by (apply Forall_replicate; reflexivity).
  split; [exact Hlen|]. split; [exact Hdim|].
  apply (single_frame_is_not_speech (replicate 100 still_point) 3 Hlen Hdim).
Defined.

(** ** The /test endpoint *)

(** For a request that forms an array, /test answers with the error
    entry (confidence 0.0) exactly when it has more than 20 frames of at
    least 3 points whose points have fewer than 2 coordinates: only then
    are coordinate columns read, and one of them is missing. *)
Theorem test_endpoint_error landmarks landmarks_np :
  np_array3 landmarks = Ok landmarks_np ->
  (snd (test_endpoint landmarks) = zero <->
   20 < length landmarks_np /\ 3 <= shape1 landmarks_np /\ shape2 landmarks_np < 2).
Proof.
  intros Harr. unfold test_endpoint. rewrite Harr. cbn [bind].
  destruct (Nat.ltb_spec 20 (length landmarks_np)) as [Hlong|Hshort].
  - destruct (Nat.leb_spec 3 (shape1 landmarks_np)) as [Hpts|Hfew].
    + unfold index_axis2.
      destruct (Nat.ltb_spec 0 (shape2 landmarks_np)) as [H0|H0]; cbn [bind try_except].
      * destruct (Nat.ltb_spec 1 (shape2 landmarks_np)) as [H1|H1]; cbn [bind try_except].
        -- match goal with
           | |- context [if ?b then _ else _] => destruct b
           end; cbn [try_except snd]; (split; [discriminate | lia]).
        -- cbn [snd]. split; [intros _; lia | reflexivity].
      * cbn [snd]. split; [intros _; lia | reflexivity].
    + cbn [try_except snd]. split; [discriminate | lia].
  - destruct (10 <? length landmarks_np); [|destruct (5 <? length landmarks_np)];
      cbn [try_except snd]; (split; [discriminate | lia]).
Qed.

Lemma test_endpoint_error_witness :
  np_array3 (replicate 21 (replicate 3 [zero])) = Ok (replicate 21 (replicate 3 [zero])) /\
  (snd (test_endpoint (replicate 21 (replicate 3 [zero]))) = zero <->
   20 < length (replicate 21 (replicate 3 [zero])) /\
   3 <= shape1 (replicate 21 (replicate 3 [zero])) /\
   shape2 (replicate 21 (replicate 3 [zero])) < 2).
Proof.
  assert (Harr : np_array3 (replicate 21 (replicate 3 [zero]))
                 = Ok (replicate 21 (replicate 3 [zero]))) by (vm_compute; reflexivity).
  split; [exact Harr|].
  apply (test_endpoint_error _ _ Harr).
Defined.
